(** * Knowledge Galaxy: the review scheduler and the review session

    A shallow embedding of the review logic of [src/App.tsx]:
    [fetchReviewCards], [handleReviewAction], the card's [onClick] and the
    render conditions that decide which buttons exist.

    Conventions of the embedding.
    - A point in time is an integer number of milliseconds since the epoch
      (an ECMAScript time value).  [JSDate.setDate] is the time computed;
      [JSDate.TimeClip] tells whether a Date can hold it, and the steps of
      the grade handler throw, as [toISOString] does, when it cannot.
    - [interval_days] is an integer; the product by 2.5 is computed on
      rationals, which is what the double product is while it is exact
      (below 2^53 / 5 days in absolute value).
    - Strings are strings of bytes; [toLowerCase] is the function of the
      code on ASCII strings.
    - The grade handler is given twice: run to completion before the next
      event on the path that does not throw ([handleReviewAction],
      [dispatch], [run]), and step by step between its awaits, with the
      throw and with calls that overlap ([advance]).  The first is the
      second when nothing comes in between and the due date is valid.
    - The outcome of each request to the backend (answered or failed) is an
      input of the handler that issues it. *)

From Stdlib Require Import ZArith List Bool Lia String Ascii QArith Qround.
From Stdlib Require Import Sorted Permutation.
Import ListNotations.
Open Scope Z_scope.

(** ** ECMAScript dates *)

Module JSDate.

Definition msPerDay : Z := 86400000.

Definition Day (t : Z) : Z := t / msPerDay.
Definition TimeWithinDay (t : Z) : Z := t mod msPerDay.
Definition MakeDate (day time : Z) : Z := day * msPerDay + time.

(** Days of one 400-year cycle of the proleptic Gregorian calendar. *)
Definition daysPerEra : Z := 146097.

(** Day number of 0000-03-01 counted backwards from the epoch. *)
Definition eraShift : Z := 719468.

Record civil := { year : Z; month : Z; date : Z }.

(** Position of a day inside its cycle: year of the cycle (years start in
    March), day of that year, month counted from March.  The year is found
    through the centuries (36524 days, the fourth one day longer) and the
    four-year groups (1461 days) the day falls in. *)
Definition yearOfEra (doe : Z) : Z :=
  let century := Z.min (doe / 36524) 3 in
  let inCentury := doe - century * 36524 in
  let leapCycle := inCentury / 1461 in
  let inCycle := inCentury - leapCycle * 1461 in
  100 * century + 4 * leapCycle + Z.min (inCycle / 365) 3.
Definition dayOfYear (doe : Z) : Z :=
  let yoe := yearOfEra doe in doe - (365 * yoe + yoe / 4 - yoe / 100).
Definition monthFromMarch (doy : Z) : Z := (5 * doy + 2) / 153.
Definition daysBeforeMonth (mp : Z) : Z := (153 * mp + 2) / 5.

(** Calendar date of a day number; [month] is 0-based as [MonthFromTime]. *)
Definition civilFromDays (z : Z) : civil :=
  let z' := z + eraShift in
  let era := z' / daysPerEra in
  let doe := z' mod daysPerEra in
  let yoe := yearOfEra doe in
  let doy := dayOfYear doe in
  let mp := monthFromMarch doy in
  let m := if mp <? 10 then mp + 2 else mp - 10 in
  {| year := yoe + era * 400 + (if m <=? 1 then 1 else 0);
     month := m;
     date := doy - daysBeforeMonth mp + 1 |}.

(** Day number of the first day of month [m] (0-based) of year [y]. *)
Definition daysFromCivil (y m : Z) : Z :=
  let y' := y - (if m <=? 1 then 1 else 0) in
  let era := y' / 400 in
  let yoe := y' mod 400 in
  let mp := if m <=? 1 then m + 10 else m - 2 in
  let doe := yoe * 365 + yoe / 4 - yoe / 100 + daysBeforeMonth mp in
  era * daysPerEra + doe - eraShift.

Definition YearFromTime (t : Z) : Z := year (civilFromDays (Day t)).
Definition MonthFromTime (t : Z) : Z := month (civilFromDays (Day t)).
Definition DateFromTime (t : Z) : Z := date (civilFromDays (Day t)).

(** [MakeDay]: the day number of the first of the month, plus [dt - 1];
    a month outside 0..11 carries into the year. *)
Definition MakeDay (y m dt : Z) : Z :=
  let ym := y + m / 12 in
  let mn := m mod 12 in
  daysFromCivil ym mn + dt - 1.

Section Zone.

(** Offset of local time from UTC in milliseconds; the flag tells whether
    the argument is a UTC time value or a local one. *)
Variable LocalTZA : Z -> bool -> Z.

Definition LocalTime (t : Z) : Z := t + LocalTZA t true.
Definition UTC (t : Z) : Z := t - LocalTZA t false.

(** [Date.prototype.getDate] *)
Definition getDate (t : Z) : Z := DateFromTime (LocalTime t).

(** [Date.prototype.setDate]: the time computed, before [TimeClip] stores it
    or makes the date invalid. *)
Definition setDate (t dt : Z) : Z :=
  let lt := LocalTime t in
  let newDate := MakeDate (MakeDay (YearFromTime lt) (MonthFromTime lt) dt)
                          (TimeWithinDay lt) in
  UTC newDate.

End Zone.

(** The largest time value of a Date, 100 000 000 days from the epoch. *)
Definition maxTime : Z := 8640000000000000.

(** [TimeClip]; [None] is NaN, the time value of an invalid Date.
    [Date.prototype.setDate] stores [TimeClip] of the time [setDate]
    computes, and [toISOString] throws a RangeError on an invalid Date. *)
Definition TimeClip (t : Z) : option Z :=
  if Z.abs t <=? maxTime then Some t else None.

End JSDate.


(** ** JavaScript values *)

(** [x || d] on a value that may be null or undefined: the default is taken
    when the value is missing or falsy. *)
Definition js_or {A : Type} (falsy : A -> bool) (x : option A) (d : A) : A :=
  match x with
  | Some v => if falsy v then d else v
  | None => d
  end.

Definition falsyNumber (n : Z) : bool := n =? 0.
Definition falsyString (s : string) : bool :=
  match s with EmptyString => true | _ => false end.

(** [Math.ceil], on the exact value of the product.  The product of the
    code is a binary64 number; it is the exact value for an integer interval
    [n] with [|5 * n| < 2^53]. *)
Definition Math_ceil (x : Q) : Z := Qceiling x.

(** [String.prototype.toLowerCase], on the ASCII letters: it is the function
    of the code on strings of ASCII characters ([isAscii]). *)
Definition lowerAscii (c : ascii) : ascii :=
  let n := nat_of_ascii c in
  if (Nat.leb 65 n && Nat.leb n 90)%bool then ascii_of_nat (n + 32) else c.

Fixpoint toLowerCase (s : string) : string :=
  match s with
  | EmptyString => EmptyString
  | String c s' => String (lowerAscii c) (toLowerCase s')
  end.

Fixpoint isAscii (s : string) : bool :=
  match s with
  | EmptyString => true
  | String c s' => (nat_of_ascii c <? 128)%nat && isAscii s'
  end.

(** ** The backend tables *)

(** A row of [knowledge_nodes]; the three nullable columns are those the
    code reads with a fallback or compares in a filter. *)
Record node_row := {
  n_id : Z;
  n_category : option string;
  n_is_mastered : bool;
  n_interval_days : option Z;
  n_next_review_at : option Z
}.

(** A row of [flashcards]. *)
Record card_row := {
  c_id : Z;
  c_node_id : Z;
  c_front : string;
  c_back : string
}.

Record database := {
  knowledge_nodes : list node_row;
  flashcards : list card_row
}.

(** ** The state of the component *)

Record node_info := {
  is_mastered : bool;
  category : string
}.

(** [type Flashcard] *)
Record Flashcard := {
  id : Z;
  node_id : Z;
  front : string;
  back : string;
  card_node : option node_info   (* field [knowledge_nodes] *)
}.

Inductive ModeType := create | review | atlas.

Inductive ReviewAction := remember | forget.

(** The status line; each constructor is one of the messages the modelled
    handlers set, with the numbers they interpolate. *)
Inductive status :=
| MsgWelcome
| MsgScanning
| MsgNoCards
| MsgNothingDue
| MsgReady (n : nat)
| MsgAtlasLoading
| MsgAtlasLoaded (n : nat)
| MsgRemembered (days : Z)
| MsgForgot
| MsgReviewDone
| MsgDeleted.

(** The [useState] cells the review logic reads or writes.  The cells of the
    create and atlas screens ([inputText], [atlasCards], ...) are left out. *)
Record ui := {
  mode : ModeType;
  statusMsg : status;
  reviewQueue : list Flashcard;
  currentCardIndex : nat;
  isFlipped : bool
}.

Record world := { view : ui; db : database }.

Definition setStatusMsg (m : status) (u : ui) : ui :=
  {| mode := mode u; statusMsg := m; reviewQueue := reviewQueue u;
     currentCardIndex := currentCardIndex u; isFlipped := isFlipped u |}.
Definition setMode (m : ModeType) (u : ui) : ui :=
  {| mode := m; statusMsg := statusMsg u; reviewQueue := reviewQueue u;
     currentCardIndex := currentCardIndex u; isFlipped := isFlipped u |}.
Definition setReviewQueue (q : list Flashcard) (u : ui) : ui :=
  {| mode := mode u; statusMsg := statusMsg u; reviewQueue := q;
     currentCardIndex := currentCardIndex u; isFlipped := isFlipped u |}.
Definition setCurrentCardIndex (f : nat -> nat) (u : ui) : ui :=
  {| mode := mode u; statusMsg := statusMsg u; reviewQueue := reviewQueue u;
     currentCardIndex := f (currentCardIndex u); isFlipped := isFlipped u |}.
Definition setIsFlipped (b : bool) (u : ui) : ui :=
  {| mode := mode u; statusMsg := statusMsg u; reviewQueue := reviewQueue u;
     currentCardIndex := currentCardIndex u; isFlipped := b |}.

(** The state on mount. *)
Definition initial_ui : ui :=
  {| mode := create; statusMsg := MsgWelcome; reviewQueue := [];
     currentCardIndex := 0%nat; isFlipped := false |}.

(** ** Requests to the backend

    Each request takes the outcome [ok] of the round trip: a failed request
    yields no data and changes nothing. *)

Definition lte (column : option Z) (bound : Z) : bool :=
  match column with
  | Some t => t <=? bound
  | None => false
  end.

(** [from('flashcards').select('*').limit(n)] *)
Definition select_flashcards (n : nat) (ok : bool) (d : database)
  : option (list card_row) :=
  if ok then Some (firstn n (flashcards d)) else None.

(** [from('knowledge_nodes').select(..).in('id', ids).lte('next_review_at', now)] *)
Definition select_due_nodes (ids : list Z) (nowISO : Z) (ok : bool)
  (d : database) : option (list node_row) :=
  if ok then
    Some (filter (fun n => existsb (Z.eqb (n_id n)) ids
                           && lte (n_next_review_at n) nowISO)
                 (knowledge_nodes d))
  else None.

(** [from('knowledge_nodes').select(..).eq('id', i).single()]: data only when
    exactly one row matches. *)
Definition select_single_node (i : Z) (ok : bool) (d : database)
  : option node_row :=
  if ok then
    match filter (fun n => n_id n =? i) (knowledge_nodes d) with
    | [n] => Some n
    | _ => None
    end
  else None.

Record node_update := {
  u_node_id : Z;
  u_next_review_at : Z;
  u_interval_days : Z
}.

Definition apply_update (u : node_update) (n : node_row) : node_row :=
  if n_id n =? u_node_id u then
    {| n_id := n_id n;
       n_category := n_category n;
       n_is_mastered := n_is_mastered n;
       n_interval_days := Some (u_interval_days u);
       n_next_review_at := Some (u_next_review_at u) |}
  else n.

(** [from('knowledge_nodes').update({..}).eq('id', i)] *)
Definition update_node (u : node_update) (ok : bool) (d : database)
  : database :=
  if ok then
    {| knowledge_nodes := map (apply_update u) (knowledge_nodes d);
       flashcards := flashcards d |}
  else d.

(** ** The handlers *)

Definition with_view (w : world) (u : ui) : world :=
  {| view := u; db := db w |}.

(** [nodesData?.find(n => n.id === card.node_id)] *)
Definition find_node (nodesData : option (list node_row)) (i : Z)
  : option node_row :=
  match nodesData with
  | Some ns => find (fun n => n_id n =? i) ns
  | None => None
  end.

Definition is_some {A : Type} (x : option A) : bool :=
  match x with Some _ => true | None => false end.

(** The object built by the [map] of [fetchReviewCards]. *)
Definition review_entry (nodesData : option (list node_row)) (card : card_row)
  : Flashcard :=
  let node := find_node nodesData (c_node_id card) in
  {| id := c_id card;
     node_id := c_node_id card;
     front := c_front card;
     back := c_back card;
     card_node :=
       Some {| is_mastered := false;
               category :=
                 toLowerCase
                   (js_or falsyString
                      (match node with
                       | Some n => n_category n
                       | None => None
                       end) "note"%string) |} |}.

Definition fetchReviewCards (nowISO : Z) (cards_ok nodes_ok : bool)
  (w : world) : world :=
  let u := setStatusMsg MsgScanning (view w) in
  match select_flashcards 50 cards_ok (db w) with
  | None | Some [] =>
      with_view w (setReviewQueue [] (setStatusMsg MsgNoCards u))
  | Some cardsData =>
      let nodeIds := map c_node_id cardsData in
      let nodesData := select_due_nodes nodeIds nowISO nodes_ok (db w) in
      let validCards :=
        map (review_entry nodesData)
            (filter (fun card => is_some (find_node nodesData (c_node_id card)))
                    cardsData) in
      let u := if (List.length validCards =? 0)%nat
               then setStatusMsg MsgNothingDue u
               else setStatusMsg (MsgReady (List.length validCards)) u in
      with_view w
        (setIsFlipped false
           (setCurrentCardIndex (fun _ => 0%nat)
              (setReviewQueue validCards u)))
  end.

(** What [fetchAtlasCards] does to the modelled cells: the status line. *)
Definition fetchAtlasCards (cards_ok : bool) (w : world) : world :=
  let u := setStatusMsg MsgAtlasLoading (view w) in
  match select_flashcards 100 cards_ok (db w) with
  | None => with_view w u
  | Some cardsData =>
      with_view w (setStatusMsg (MsgAtlasLoaded (List.length cardsData)) u)
  end.

Section Review.

Variable LocalTZA : Z -> bool -> Z.

(** The interval chosen by [handleReviewAction]. *)
Definition nextIntervalFor (action : ReviewAction) (oldNode : option node_row)
  : Z :=
  match action with
  | remember =>
      let currentInterval :=
        js_or falsyNumber
          (match oldNode with
           | Some n => n_interval_days n
           | None => None
           end) 0 in
      if currentInterval =? 0 then 1
      else Math_ceil (inject_Z currentInterval * (5 # 2))
  | forget => 1
  end.

(** [nextDate.setDate(nextDate.getDate() + nextInterval)] on [new Date()]. *)
Definition nextDateFor (now nextInterval : Z) : Z :=
  JSDate.setDate LocalTZA now (JSDate.getDate LocalTZA now + nextInterval).

(** [handleReviewAction], run from the click to its last line with nothing in
    between, on the path where [toISOString] returns; [now] is the clock read
    by [new Date()].  The second component is the update sent to the backend,
    if any.  The path where [toISOString] throws and the runs in which other
    handlers come between the awaits are those of [handleReviewAction_run]
    and [advance] below. *)
Definition handleReviewAction (action : ReviewAction) (now : Z)
  (select_ok update_ok : bool) (w : world) : world * option node_update :=
  let u := view w in
  match nth_error (reviewQueue u) (currentCardIndex u) with
  | None => (w, None)
  | Some currentCard =>
      let oldNode := select_single_node (node_id currentCard) select_ok (db w) in
      let nextInterval := nextIntervalFor action oldNode in
      let u1 := match action with
                | remember => setStatusMsg (MsgRemembered nextInterval) u
                | forget => setStatusMsg MsgForgot u
                end in
      let nextDate := nextDateFor now nextInterval in
      let request := {| u_node_id := node_id currentCard;
                        u_next_review_at := nextDate;
                        u_interval_days := nextInterval |} in
      let d := update_node request update_ok (db w) in
      let u2 := setIsFlipped false u1 in
      let u3 :=
        if Z.of_nat (currentCardIndex u) <? Z.of_nat (List.length (reviewQueue u)) - 1
        then setCurrentCardIndex (fun prev => S prev) u2
        else setReviewQueue [] (setStatusMsg MsgReviewDone u2) in
      ({| view := u3; db := d |}, Some request)
  end.

(** ** Events

    What the user can do on the modelled screens, and the change of the
    signed-in session object reported by the auth listener, each with the
    inputs the handler consumes. *)
Inductive event :=
| ClickMode (m : ModeType) (nowISO : Z) (cards_ok nodes_ok : bool)
| SessionChange (nowISO : Z) (cards_ok nodes_ok : bool)
| ClickCard
| ClickGrade (action : ReviewAction) (now : Z) (select_ok update_ok : bool).

(** Whether the element that receives the event is rendered: the header
    buttons always are, the card when the queue is not empty in review mode,
    the two grade buttons only once the card is flipped. *)
Definition cardShown (u : ui) : bool :=
  match mode u, reviewQueue u with
  | review, _ :: _ => true
  | _, _ => false
  end.

Definition enabled (u : ui) (e : event) : bool :=
  match e with
  | ClickMode _ _ _ _ => true
  | SessionChange _ _ _ => true
  | ClickCard => cardShown u
  | ClickGrade _ _ _ _ => cardShown u && isFlipped u
  end.

Definition ModeType_eqb (a b : ModeType) : bool :=
  match a, b with
  | create, create | review, review | atlas, atlas => true
  | _, _ => false
  end.

(** The effect on [[mode, session]], for a signed-in session. *)
Definition modeEffect (nowISO : Z) (cards_ok nodes_ok : bool) (w : world)
  : world :=
  match mode (view w) with
  | create => w
  | review => fetchReviewCards nowISO cards_ok nodes_ok w
  | atlas => fetchAtlasCards cards_ok w
  end.

(** [setMode(m)]: the effect runs only when the mode has changed. *)
Definition changeMode (m : ModeType) (nowISO : Z) (cards_ok nodes_ok : bool)
  (w : world) : world :=
  if ModeType_eqb m (mode (view w)) then w
  else modeEffect nowISO cards_ok nodes_ok (with_view w (setMode m (view w))).

(** [onClick={() => setIsFlipped(!isFlipped)}] *)
Definition flipCard (w : world) : world :=
  with_view w (setIsFlipped (negb (isFlipped (view w))) (view w)).

(** An event handled with nothing in between: a grade runs from the click to
    its last line before the next event.  Calls of the grade handler that
    overlap are runs of [advance] below. *)
Definition dispatch (w : world) (e : event) : world :=
  if enabled (view w) e then
    match e with
    | ClickMode m nowISO cards_ok nodes_ok =>
        changeMode m nowISO cards_ok nodes_ok w
    | SessionChange nowISO cards_ok nodes_ok =>
        modeEffect nowISO cards_ok nodes_ok w
    | ClickCard => flipCard w
    | ClickGrade action now select_ok update_ok =>
        fst (handleReviewAction action now select_ok update_ok w)
    end
  else w.

Definition run (es : list event) (w : world) : world :=
  fold_left dispatch es w.

(** The session as the specification names it. *)
Inductive session :=
| Terminal                              (* no card to show: Empty or Complete *)
| Showing (index : nat) (revealed : bool).

Definition session_of (u : ui) : session :=
  match reviewQueue u with
  | [] => Terminal
  | _ :: _ => Showing (currentCardIndex u) (isFlipped u)
  end.

End Review.

(** ** Observations used by the statements *)

(** The interval of the update a grade sent, if it sent one. *)
Definition sent_interval (r : world * option node_update) : option Z :=
  option_map u_interval_days (snd r).


(** The backend row a queue entry was built from. *)
Definition card_of (e : Flashcard) : card_row :=
  {| c_id := id e; c_node_id := node_id e;
     c_front := front e; c_back := back e |}.

(** Some node of the table has this identifier and is due at [nowISO]. *)
Definition has_due_node (d : database) (nowISO : Z) (i : Z) : bool :=
  existsb (fun n => (n_id n =? i) && lte (n_next_review_at n) nowISO)
          (knowledge_nodes d).

(** The cards the first request of [fetchReviewCards] brought back. *)
Definition fetched_cards (cards_ok : bool) (d : database) : list card_row :=
  match select_flashcards 50 cards_ok d with
  | Some cardsData => cardsData
  | None => []
  end.

(** The mastery flag a queue entry shows. *)
Definition entry_mastered (e : Flashcard) : bool :=
  match card_node e with
  | Some info => is_mastered info
  | None => false
  end.

Definition mastery_flags (d : database) : list (Z * bool) :=
  map (fun n => (n_id n, n_is_mastered n)) (knowledge_nodes d).

(** The cursor points into the queue unless the queue is empty. *)
Definition cursor_ok (u : ui) : Prop :=
  reviewQueue u = [] \/ (currentCardIndex u < List.length (reviewQueue u))%nat.

(** ** Sample data *)

(** A zone with a constant offset (UTC+8). *)
Definition fixedZone : Z -> bool -> Z := fun _ _ => 28800000.

Definition sampleNode2 : node_row :=
  {| n_id := 2; n_category := None; n_is_mastered := true;
     n_interval_days := Some 4; n_next_review_at := Some 200 |}.

Definition sampleNode4 : node_row :=
  {| n_id := 4; n_category := Some "note"%string; n_is_mastered := false;
     n_interval_days := None; n_next_review_at := Some 300 |}.

Definition sampleNodes : list node_row :=
  [ {| n_id := 1; n_category := Some "Code"%string; n_is_mastered := false;
       n_interval_days := Some 0; n_next_review_at := Some 100 |};
    sampleNode2;
    {| n_id := 3; n_category := Some "english"%string; n_is_mastered := false;
       n_interval_days := None; n_next_review_at := Some 5000 |};
    sampleNode4 ].

Definition sampleCards : list card_row :=
  [ {| c_id := 10; c_node_id := 1; c_front := "a"; c_back := "b" |};
    {| c_id := 11; c_node_id := 2; c_front := "c"; c_back := "d" |};
    {| c_id := 12; c_node_id := 3; c_front := "e"; c_back := "f" |};
    {| c_id := 13; c_node_id := 9; c_front := "g"; c_back := "h" |};
    {| c_id := 14; c_node_id := 4; c_front := "i"; c_back := "j" |} ].

Definition sampleDb : database :=
  {| knowledge_nodes := sampleNodes; flashcards := sampleCards |}.

(** The clock at the grades of the samples. *)
Definition sampleNow : Z := 1762153200000.

(** The queue entries of cards 11 and 14. *)
Definition sampleEntry1 : Flashcard :=
  {| id := 11; node_id := 2; front := "c"; back := "d";
     card_node := Some {| is_mastered := false; category := "note" |} |}.

Definition sampleEntry2 : Flashcard :=
  {| id := 14; node_id := 4; front := "i"; back := "j";
     card_node := Some {| is_mastered := false; category := "note" |} |}.

(** A zone whose offset changes from UTC-4 to UTC-5. *)
Definition changingZone : Z -> bool -> Z :=
  fun t _ => if t <? 1762056000000 then -14400000 else -18000000.

Definition mounted : world := {| view := initial_ui; db := sampleDb |}.

(** Review mode entered at time 1000: cards 10, 11 and 14 are due. *)
Definition entered : world :=
  dispatch fixedZone mounted (ClickMode review 1000 true true).

(** The first card revealed. *)
Definition revealed0 : world := dispatch fixedZone entered ClickCard.

(** The first card graded, the second revealed. *)
Definition revealed1 : world :=
  run fixedZone [ClickGrade remember sampleNow true true; ClickCard]
      revealed0.

(** The last card revealed. *)
Definition revealed2 : world :=
  run fixedZone [ClickGrade forget sampleNow true true; ClickCard]
      revealed1.

(** ** The atlas screen *)

(** The label of a category style; the source holds the display text. *)
Inductive category_label := LabelCode | LabelEnglish | LabelNote.

Record category_style := {
  bg : string;
  text : string;
  tag : string;
  label : category_label
}.

(** [getCategoryColor] *)
Definition getCategoryColor (cat : string) : category_style :=
  let c := toLowerCase cat in
  if String.eqb c "code" then
    {| bg := "#eef4ff"; text := "#2c3e50"; tag := "#3498db";
       label := LabelCode |}
  else if String.eqb c "english" then
    {| bg := "#fbf0ff"; text := "#5b2c6f"; tag := "#9b59b6";
       label := LabelEnglish |}
  else
    {| bg := "#fffdf0"; text := "#795548"; tag := "#f39c12";
       label := LabelNote |}.

(** [String.prototype.includes] *)
Fixpoint includes (s sub : string) : bool :=
  String.prefix sub s
  || match s with
     | EmptyString => false
     | String _ s' => includes s' sub
     end.

(** The cells of the atlas screen and the star counter. *)
Record atlasScreen := {
  atlasCards : list Flashcard;
  searchTerm : string;
  filterCategory : string;
  totalStars : Z
}.

Record appState := {
  world_of : world;
  atlas_of : atlasScreen
}.

Definition setAtlasCards (f : list Flashcard -> list Flashcard)
  (a : atlasScreen) : atlasScreen :=
  {| atlasCards := f (atlasCards a); searchTerm := searchTerm a;
     filterCategory := filterCategory a; totalStars := totalStars a |}.
Definition setTotalStars (f : Z -> Z) (a : atlasScreen) : atlasScreen :=
  {| atlasCards := atlasCards a; searchTerm := searchTerm a;
     filterCategory := filterCategory a; totalStars := f (totalStars a) |}.

(** [.order('id', { ascending: false })] *)
Fixpoint insert_desc (c : card_row) (l : list card_row) : list card_row :=
  match l with
  | [] => [c]
  | x :: l' => if c_id x <=? c_id c then c :: l else x :: insert_desc c l'
  end.

Definition order_id_desc (l : list card_row) : list card_row :=
  fold_right insert_desc [] l.

(** [from('flashcards').select('*').order('id', ..).limit(n)] *)
Definition select_flashcards_desc (n : nat) (ok : bool) (d : database)
  : option (list card_row) :=
  if ok then Some (firstn n (order_id_desc (flashcards d))) else None.

(** [from('knowledge_nodes').select(..).in('id', ids)] *)
Definition select_nodes_in (ids : list Z) (ok : bool) (d : database)
  : option (list node_row) :=
  if ok then
    Some (filter (fun n => existsb (Z.eqb (n_id n)) ids) (knowledge_nodes d))
  else None.

(** [from('knowledge_nodes').select('*', { count: 'exact', head: true })] *)
Definition count_nodes (ok : bool) (d : database) : option Z :=
  if ok then Some (Z.of_nat (List.length (knowledge_nodes d))) else None.

(** [from('knowledge_nodes').delete().eq('id', i)]; [cascade] tells whether
    the backend deletes the flashcards of a deleted node with it. *)
Definition delete_node (cascade : bool) (i : Z) (ok : bool) (d : database)
  : database :=
  if ok then
    {| knowledge_nodes :=
         filter (fun n => negb (n_id n =? i)) (knowledge_nodes d);
       flashcards :=
         if cascade
         then filter (fun c => negb (c_node_id c =? i)) (flashcards d)
         else flashcards d |}
  else d.

(** [from('flashcards').delete().eq('id', i)] *)
Definition delete_card (i : Z) (ok : bool) (d : database) : database :=
  if ok then
    {| knowledge_nodes := knowledge_nodes d;
       flashcards := filter (fun c => negb (c_id c =? i)) (flashcards d) |}
  else d.

Inductive request :=
| DeleteNode (i : Z)
| DeleteCard (i : Z).

(** The object built by the [map] of [fetchAtlasCards]; [created_at], which
    nothing reads, is not carried. *)
Definition atlas_entry (nodesData : option (list node_row)) (card : card_row)
  : Flashcard :=
  let node := find_node nodesData (c_node_id card) in
  {| id := c_id card;
     node_id := c_node_id card;
     front := c_front card;
     back := c_back card;
     card_node :=
       Some {| is_mastered :=
                 match node with
                 | Some n => n_is_mastered n
                 | None => false
                 end;
               category :=
                 toLowerCase
                   (js_or falsyString
                      (match node with
                       | Some n => n_category n
                       | None => None
                       end) "note"%string) |} |}.

Definition with_world (a : appState) (w : world) : appState :=
  {| world_of := w; atlas_of := atlas_of a |}.

(** [fetchAtlasCards], with the list it loads. *)
Definition fetchAtlasCardsList (cards_ok nodes_ok : bool) (a : appState)
  : appState :=
  let w := world_of a in
  let u := setStatusMsg MsgAtlasLoading (view w) in
  match select_flashcards_desc 100 cards_ok (db w) with
  | None => with_world a (with_view w u)
  | Some cardsData =>
      let nodeIds := map c_node_id cardsData in
      let nodesData := select_nodes_in nodeIds nodes_ok (db w) in
      let fullCards := map (atlas_entry nodesData) cardsData in
      {| world_of :=
           with_view w
             (setStatusMsg (MsgAtlasLoaded (List.length fullCards)) u);
         atlas_of := setAtlasCards (fun _ => fullCards) (atlas_of a) |}
  end.

(** [fetchTotalStars] *)
Definition fetchTotalStars (ok : bool) (a : appState) : appState :=
  {| world_of := world_of a;
     atlas_of :=
       setTotalStars
         (fun _ => js_or falsyNumber (count_nodes ok (db (world_of a))) 0)
         (atlas_of a) |}.

(** [handleDelete]; [confirmed] is the answer to the confirmation dialog,
    [ok1], [ok2], [ok3] the outcomes of the requests in the order they are
    sent.  The second component lists the requests sent. *)
Definition handleDelete (cascade confirmed : bool) (cardId nodeId : Z)
  (ok1 ok2 ok3 : bool) (a : appState) : appState * list request :=
  if negb confirmed then (a, [])
  else
    let w := world_of a in
    let d1 := delete_node cascade nodeId ok1 (db w) in
    let error := negb ok1 in
    let '(d, sent) :=
      if error then
        let d2 := delete_card cardId ok2 d1 in
        let d3 := delete_node cascade nodeId ok3 d2 in
        (d3, [DeleteNode nodeId; DeleteCard cardId; DeleteNode nodeId])
      else (d1, [DeleteNode nodeId]) in
    ({| world_of := {| view := setStatusMsg MsgDeleted (view w); db := d |};
        atlas_of :=
          setTotalStars (fun prev => prev - 1)
            (setAtlasCards (filter (fun c => negb (id c =? cardId)))
                           (atlas_of a)) |},
     sent).

(** The filter of the render: [matchesSearch && matchesCategory]. *)
Definition matchesSearch (term : string) (card : Flashcard) : bool :=
  includes (toLowerCase (front card ++ back card)) (toLowerCase term).

Definition matchesCategory (filter_ : string) (card : Flashcard) : bool :=
  String.eqb filter_ "all"
  || match card_node card with
     | Some info => String.eqb (category info) filter_
     | None => false
     end.

Definition filteredAtlasCards (a : atlasScreen) : list Flashcard :=
  filter (fun card => matchesSearch (searchTerm a) card
                      && matchesCategory (filterCategory a) card)
         (atlasCards a).

Definition has_category (cat : string) (card : Flashcard) : bool :=
  match card_node card with
  | Some info => String.eqb (category info) cat
  | None => false
  end.

(** A card counted by none of the three category counters. *)
Definition uncategorised (card : Flashcard) : bool :=
  negb (has_category "code" card || has_category "english" card
        || has_category "note" card).

(** The order of [order_id_desc]. *)
Definition newer_first (x y : card_row) : Prop := c_id y <= c_id x.

(** The object [stats] of the render. *)
Record atlas_stats := {
  st_total : nat;
  st_code : nat;
  st_english : nat;
  st_note : nat
}.

Definition stats (a : atlasScreen) : atlas_stats :=
  {| st_total := List.length (atlasCards a);
     st_code := List.length (filter (has_category "code") (atlasCards a));
     st_english := List.length (filter (has_category "english") (atlasCards a));
     st_note := List.length (filter (has_category "note") (atlasCards a)) |}.

(** ** Review runs with the updates they send *)

Section ReviewLog.

Variable LocalTZA : Z -> bool -> Z.

(** The update an event sends to the backend, if it sends one. *)
Definition sent_by (w : world) (e : event) : option node_update :=
  if enabled (view w) e then
    match e with
    | ClickGrade action now select_ok update_ok =>
        snd (handleReviewAction LocalTZA action now select_ok update_ok w)
    | _ => None
    end
  else None.

Fixpoint run_log (es : list event) (w : world) : list node_update :=
  match es with
  | [] => []
  | e :: es' =>
      match sent_by w e with
      | Some u => [u]
      | None => []
      end ++ run_log es' (dispatch LocalTZA w e)
  end.

End ReviewLog.

(** One grade of a review pass: the outcome chosen and the inputs of the
    handler. *)
Record grading := {
  g_action : ReviewAction;
  g_now : Z;
  g_select_ok : bool;
  g_update_ok : bool
}.

(** Reveal the card, then grade it. *)
Definition reveal_and_grade (g : grading) : list event :=
  [ClickCard;
   ClickGrade (g_action g) (g_now g) (g_select_ok g) (g_update_ok g)].

Definition review_pass (gs : list grading) : list event :=
  flat_map reveal_and_grade gs.

(** ** The grade handler between its awaits

    [handleReviewAction] awaits the answer of the select and of the update.
    It reads [reviewQueue] and [currentCardIndex] from the render that made
    the button (its closure); the state setters act on the state at the
    time they run. *)

Section Steps.

Variable LocalTZA : Z -> bool -> Z.

(** Lines 248-249: the card under the cursor of the closure. *)
Definition currentCardOf (closure : ui) : option Flashcard :=
  nth_error (reviewQueue closure) (currentCardIndex closure).

(** Lines 252-265, run when the select is answered: the status line is
    written, then [toISOString] throws when [setDate] made the date invalid
    and no update is issued.  The result is the state, the interval computed
    and the update issued, if any. *)
Definition afterSelect (action : ReviewAction) (card : Flashcard) (now : Z)
  (select_ok : bool) (w : world) : world * Z * option node_update :=
  let oldNode := select_single_node (node_id card) select_ok (db w) in
  let nextInterval := nextIntervalFor action oldNode in
  let u1 := match action with
            | remember => setStatusMsg (MsgRemembered nextInterval) (view w)
            | forget => setStatusMsg MsgForgot (view w)
            end in
  let issued :=
    match JSDate.TimeClip (nextDateFor LocalTZA now nextInterval) with
    | Some nextDate =>
        Some {| u_node_id := node_id card;
                u_next_review_at := nextDate;
                u_interval_days := nextInterval |}
    | None => None
    end in
  (with_view w u1, nextInterval, issued).

(** Lines 265-272, run when the update is answered; the test of line 268
    reads the closure. *)
Definition afterUpdate (closure : ui) (req : node_update) (update_ok : bool)
  (w : world) : world :=
  let d := update_node req update_ok (db w) in
  let u2 := setIsFlipped false (view w) in
  let u3 :=
    if Z.of_nat (currentCardIndex closure)
       <? Z.of_nat (List.length (reviewQueue closure)) - 1
    then setCurrentCardIndex (fun prev => S prev) u2
    else setReviewQueue [] (setStatusMsg MsgReviewDone u2) in
  {| view := u3; db := d |}.

(** How one call of [handleReviewAction] ends. *)
Inductive outcome :=
| NoCard
| Threw (w : world) (nextInterval : Z)
| Returned (w : world) (req : node_update).

(** [handleReviewAction] run from the click to its end with nothing in
    between. *)
Definition handleReviewAction_run (action : ReviewAction) (now : Z)
  (select_ok update_ok : bool) (w : world) : outcome :=
  match currentCardOf (view w) with
  | None => NoCard
  | Some card =>
      let '(w1, nextInterval, issued) :=
        afterSelect action card now select_ok w in
      match issued with
      | None => Threw w1 nextInterval
      | Some req => Returned (afterUpdate (view w) req update_ok w1) req
      end
  end.

Definition outcome_world (w : world) (o : outcome) : world :=
  match o with
  | NoCard => w
  | Threw w1 _ => w1
  | Returned w' _ => w'
  end.

Definition outcome_interval (o : outcome) : option Z :=
  match o with
  | NoCard => None
  | Threw _ nextInterval => Some nextInterval
  | Returned _ req => Some (u_interval_days req)
  end.

Definition outcome_request (o : outcome) : option node_update :=
  match o with
  | Returned _ req => Some req
  | _ => None
  end.

(** An event handled to its end with nothing in between. *)
Definition handled (w : world) (e : event) : world :=
  match e with
  | ClickGrade action now select_ok update_ok =>
      if enabled (view w) e
      then outcome_world w
             (handleReviewAction_run action now select_ok update_ok w)
      else w
  | _ => dispatch LocalTZA w e
  end.

(** A call of the handler that is waiting for an answer. *)
Inductive task :=
| AwaitSelect (closure : ui) (action : ReviewAction) (card : Flashcard)
| AwaitUpdate (closure : ui) (req : node_update).

Record running := { current : world; pending : list task }.

Definition quiescent (w : world) : running :=
  {| current := w; pending := [] |}.

Definition remove_nth {A : Type} (k : nat) (l : list A) : list A :=
  firstn k l ++ skipn (S k) l.

Definition replace_nth {A : Type} (k : nat) (x : A) (l : list A) : list A :=
  firstn k l ++ x :: skipn (S k) l.

(** What can happen next: an event other than a grade, handled at once; a
    press on a grade button; the answer to the request of the call at
    position [k] of the pending ones. *)
Inductive step :=
| Press (e : event)
| PressGrade (action : ReviewAction)
| SelectAnswer (k : nat) (select_ok : bool) (now : Z)
| UpdateAnswer (k : nat) (update_ok : bool).

Definition advance (r : running) (l : step) : running :=
  let w := current r in
  match l with
  | Press (ClickGrade _ _ _ _) => r
  | Press e => {| current := dispatch LocalTZA w e; pending := pending r |}
  | PressGrade action =>
      if cardShown (view w) && isFlipped (view w) then
        match currentCardOf (view w) with
        | Some card =>
            {| current := w;
               pending := pending r ++ [AwaitSelect (view w) action card] |}
        | None => r
        end
      else r
  | SelectAnswer k select_ok now =>
      match nth_error (pending r) k with
      | Some (AwaitSelect closure action card) =>
          let '(w1, _, issued) := afterSelect action card now select_ok w in
          {| current := w1;
             pending :=
               match issued with
               | Some req => replace_nth k (AwaitUpdate closure req) (pending r)
               | None => remove_nth k (pending r)
               end |}
      | _ => r
      end
  | UpdateAnswer k update_ok =>
      match nth_error (pending r) k with
      | Some (AwaitUpdate closure req) =>
          {| current := afterUpdate closure req update_ok w;
             pending := remove_nth k (pending r) |}
      | _ => r
      end
  end.

Definition advance_all (ls : list step) (r : running) : running :=
  fold_left advance ls r.

(** What the answer to a select leads to: an update issued or a throw. *)
Inductive trace_entry :=
| Issued (req : node_update)
| Thrown (nextInterval : Z).

Definition trace_of (r : running) (l : step) : list trace_entry :=
  match l with
  | SelectAnswer k select_ok now =>
      match nth_error (pending r) k with
      | Some (AwaitSelect _ action card) =>
          let '(_, nextInterval, issued) :=
            afterSelect action card now select_ok (current r) in
          match issued with
          | Some req => [Issued req]
          | None => [Thrown nextInterval]
          end
      | _ => []
      end
  | _ => []
  end.

Definition outcome_trace (o : outcome) : list trace_entry :=
  match o with
  | NoCard => []
  | Threw _ nextInterval => [Thrown nextInterval]
  | Returned _ req => [Issued req]
  end.

Definition handled_trace (w : world) (e : event) : list trace_entry :=
  match e with
  | ClickGrade action now select_ok update_ok =>
      if enabled (view w) e
      then outcome_trace
             (handleReviewAction_run action now select_ok update_ok w)
      else []
  | _ => []
  end.

Fixpoint trace_all (ls : list step) (r : running) : list trace_entry :=
  match ls with
  | [] => []
  | l :: ls' => trace_of r l ++ trace_all ls' (advance r l)
  end.

(** The steps of an event handled with nothing in between: a grade is the
    press and the two answers of its own call. *)
Definition steps_of (e : event) : list step :=
  match e with
  | ClickGrade action now select_ok update_ok =>
      [PressGrade action; SelectAnswer 0 select_ok now;
       UpdateAnswer 0 update_ok]
  | _ => [Press e]
  end.

(** Events handled one after the other, each to its end, from a state with
    no call pending. *)
Definition sequential (es : list event) (w : world) : running :=
  advance_all (flat_map steps_of es) (quiescent w).

Definition sequential_trace (es : list event) (w : world)
  : list trace_entry :=
  trace_all (flat_map steps_of es) (quiescent w).

Definition issued_ids (t : list trace_entry) : list Z :=
  flat_map (fun x => match x with
                     | Issued req => [u_node_id req]
                     | Thrown _ => []
                     end) t.

Definition no_throw (t : list trace_entry) : bool :=
  forallb (fun x => match x with Issued _ => true | Thrown _ => false end) t.

End Steps.

(** Whether every category stored in the tables is made of ASCII
    characters. *)
Definition asciiCategories (d : database) : bool :=
  forallb (fun n => match n_category n with
                    | Some c => isAscii c
                    | None => true
                    end) (knowledge_nodes d).

(** ** More sample data *)

Definition sampleAtlas : atlasScreen :=
  {| atlasCards := []; searchTerm := ""; filterCategory := "all";
     totalStars := 4 |}.

Definition sampleApp : appState :=
  {| world_of := mounted; atlas_of := sampleAtlas |}.

(** The atlas loaded from the sample tables. *)
Definition atlasLoaded : appState := fetchAtlasCardsList true true sampleApp.

Definition sampleGrading : grading :=
  {| g_action := remember; g_now := sampleNow;
     g_select_ok := true; g_update_ok := true |}.

(** The queue entry of card 10. *)
Definition sampleEntry0 : Flashcard :=
  {| id := 10; node_id := 1; front := "a"; back := "b";
     card_node := Some {| is_mastered := false; category := "code" |} |}.

(** A table whose only node carries a negative interval, shown revealed. *)
Definition negativeNode : node_row :=
  {| n_id := 1; n_category := None; n_is_mastered := false;
     n_interval_days := Some (-2); n_next_review_at := Some 100 |}.

Definition negativeDb : database :=
  {| knowledge_nodes := [negativeNode];
     flashcards := [{| c_id := 10; c_node_id := 1;
                       c_front := "a"; c_back := "b" |}] |}.

Definition negativeEntry : Flashcard :=
  {| id := 10; node_id := 1; front := "a"; back := "b";
     card_node := Some {| is_mastered := false; category := "note" |} |}.

Definition negativeShown : world :=
  run fixedZone [ClickMode review 1000 true true; ClickCard]
      {| view := initial_ui; db := negativeDb |}.

(** A table whose only node carries an interval of 40 000 000 days, shown
    revealed. *)
Definition distantNode : node_row :=
  {| n_id := 1; n_category := None; n_is_mastered := false;
     n_interval_days := Some 40000000; n_next_review_at := Some 100 |}.

Definition distantDb : database :=
  {| knowledge_nodes := [distantNode];
     flashcards := [{| c_id := 10; c_node_id := 1;
                       c_front := "a"; c_back := "b" |}] |}.

Definition distantShown : world :=
  run fixedZone [ClickMode review 1000 true true; ClickCard]
      {| view := initial_ui; db := distantDb |}.

(** A card filed under a category the screens do not know. *)
Definition otherInfo : node_info :=
  {| is_mastered := false; category := "language" |}.

Definition otherCard : Flashcard :=
  {| id := 20; node_id := 5; front := "bonjour"; back := "hello";
     card_node := Some otherInfo |}.

(** * Properties *)

(** ** The calendar *)

Module JSDateFacts.
Import JSDate.

Lemma yearOfEra_range doe :
  0 <= doe < daysPerEra ->
  0 <= yearOfEra doe < 400 /\ 0 <= dayOfYear doe <= 365.
Proof.
  unfold daysPerEra, dayOfYear, yearOfEra. cbv zeta. intros Hdoe.
  Z.div_mod_to_equations. lia.
Qed.

Lemma monthFromMarch_range doy :
  0 <= doy <= 365 -> 0 <= monthFromMarch doy < 12.
Proof.
  unfold monthFromMarch. intros Hdoy. Z.div_mod_to_equations. lia.
Qed.

(** Within the month of day [z], [MakeDay] counts days from [z]. *)
Lemma MakeDay_same_month z n :
  let c := civilFromDays z in
  MakeDay (year c) (month c) (date c + n) = z + n.
Proof.
  cbv zeta. unfold MakeDay, civilFromDays. cbn [year month date].
  set (z' := z + eraShift).
  set (era := z' / daysPerEra).
  set (doe := z' mod daysPerEra).
  assert (Hdoe : 0 <= doe < daysPerEra)
    by (apply Z.mod_pos_bound; reflexivity).
  assert (Hz : z' = daysPerEra * era + doe)
    by (apply Z.div_mod; discriminate).
  destruct (yearOfEra_range doe Hdoe) as [Hyoe Hdoy].
  pose proof (monthFromMarch_range _ Hdoy) as Hmp.
  assert (Hday : dayOfYear doe
                 = doe - (365 * yearOfEra doe + yearOfEra doe / 4
                          - yearOfEra doe / 100)) by reflexivity.
  set (yoe := yearOfEra doe) in *.
  set (doy := dayOfYear doe) in *.
  set (mp := monthFromMarch doy) in *.
  set (m := if mp <? 10 then mp + 2 else mp - 10).
  assert (Hm : 0 <= m < 12) by (unfold m; destruct (mp <? 10) eqn:E; lia).
  assert (Hback : (if m <=? 1 then m + 10 else m - 2) = mp).
  { unfold m. destruct (mp <? 10) eqn:E.
    - destruct (mp + 2 <=? 1) eqn:E'; lia.
    - destruct (mp - 10 <=? 1) eqn:E'; lia. }
  rewrite (Z.div_small m 12) by lia.
  rewrite (Z.mod_small m 12) by lia.
  rewrite Z.add_0_r.
  unfold daysFromCivil. cbv zeta. rewrite Hback.
  replace (yoe + era * 400 + (if m <=? 1 then 1 else 0)
           - (if m <=? 1 then 1 else 0)) with (yoe + era * 400) by lia.
  rewrite Z.div_add by discriminate.
  rewrite Z.mod_add by discriminate.
  rewrite (Z.div_small yoe 400) by lia.
  rewrite (Z.mod_small yoe 400) by lia.
  unfold z' in Hz. unfold daysPerEra in *. lia.
Qed.

End JSDateFacts.

(** ** The scheduler and the session *)

Section Properties.

Variable LocalTZA : Z -> bool -> Z.

Lemma MakeDate_Day t n :
  JSDate.MakeDate (JSDate.Day t + n) (JSDate.TimeWithinDay t)
  = t + n * JSDate.msPerDay.
Proof.
  unfold JSDate.MakeDate, JSDate.Day, JSDate.TimeWithinDay.
  pose proof (Z.div_mod t JSDate.msPerDay) as H.
  assert (JSDate.msPerDay <> 0) by discriminate.
  specialize (H ltac:(assumption)). lia.
Qed.

(** [setDate(getDate() + n)] moves the local time by [n] days. *)
Lemma nextDateFor_local now n :
  nextDateFor LocalTZA now n
  = JSDate.UTC LocalTZA (JSDate.LocalTime LocalTZA now + n * JSDate.msPerDay).
Proof.
  unfold nextDateFor, JSDate.setDate, JSDate.getDate.
  unfold JSDate.YearFromTime, JSDate.MonthFromTime, JSDate.DateFromTime.
  cbv zeta.
  rewrite (JSDateFacts.MakeDay_same_month
             (JSDate.Day (JSDate.LocalTime LocalTZA now)) n).
  now rewrite MakeDate_Day.
Qed.

Lemma nextDateFor_fixed offset now n :
  (forall t b, LocalTZA t b = offset) ->
  nextDateFor LocalTZA now n = now + n * JSDate.msPerDay.
Proof.
  intros Hz. rewrite nextDateFor_local.
  unfold JSDate.UTC, JSDate.LocalTime. rewrite !Hz. lia.
Qed.

(** The handler on a state that has a current card. *)
Lemma handleReviewAction_current action now select_ok update_ok w card :
  nth_error (reviewQueue (view w)) (currentCardIndex (view w)) = Some card ->
  let oldNode := select_single_node (node_id card) select_ok (db w) in
  let nextInterval := nextIntervalFor action oldNode in
  snd (handleReviewAction LocalTZA action now select_ok update_ok w)
  = Some {| u_node_id := node_id card;
            u_next_review_at := nextDateFor LocalTZA now nextInterval;
            u_interval_days := nextInterval |}.
Proof.
  intros Hcard. unfold handleReviewAction. rewrite Hcard. reflexivity.
Qed.

Lemma Math_ceil_bounds (x : Q) :
  (inject_Z (Math_ceil x - 1) < x /\ x <= inject_Z (Math_ceil x))%Q.
Proof.
  unfold Math_ceil. split; [apply Qceiling_lt | apply Qle_ceiling].
Qed.

(** The ceiling of 2.5 n in integer arithmetic. *)
Lemma Math_ceil_times n :
  Math_ceil (inject_Z n * (5 # 2)) = (5 * n + 1) / 2.
Proof.
  destruct (Math_ceil_bounds (inject_Z n * (5 # 2))) as [Hlo Hhi].
  set (m := Math_ceil (inject_Z n * (5 # 2))) in *.
  unfold Qlt, Qle, Qmult, inject_Z in Hlo, Hhi. cbn in Hlo, Hhi.
  apply Z.div_unique with (r := 5 * n + 1 - 2 * m); lia.
Qed.

(** What a grade does to the component state when there is a current card:
    the flag is reset, the cursor moves on or the queue is emptied. *)
Lemma handleReviewAction_view action now select_ok update_ok w card :
  nth_error (reviewQueue (view w)) (currentCardIndex (view w)) = Some card ->
  let u' := view (fst (handleReviewAction LocalTZA action now select_ok
                         update_ok w)) in
  let i := currentCardIndex (view w) in
  let q := reviewQueue (view w) in
  mode u' = mode (view w) /\
  isFlipped u' = false /\
  ((S i < List.length q)%nat -> reviewQueue u' = q /\ currentCardIndex u' = S i) /\
  ((S i = List.length q)%nat -> reviewQueue u' = []).
Proof.
  intros Hcard. cbv zeta. unfold handleReviewAction. rewrite Hcard.
  cbn [fst view].
  destruct (Z.of_nat (currentCardIndex (view w))
            <? Z.of_nat (List.length (reviewQueue (view w))) - 1) eqn:Hlast.
  - apply Z.ltb_lt in Hlast.
    destruct action; cbn; (repeat split; try reflexivity; intros; lia).
  - apply Z.ltb_ge in Hlast.
    destruct action; cbn; (repeat split; try reflexivity; intros; lia).
Qed.

Lemma update_node_stored u d n :
  In n (knowledge_nodes (update_node u true d)) ->
  n_id n = u_node_id u ->
  n_interval_days n = Some (u_interval_days u) /\
  n_next_review_at n = Some (u_next_review_at u).
Proof.
  cbn. intros Hin Hid. apply in_map_iff in Hin as [n0 [<- _]].
  unfold apply_update in *.
  destruct (n_id n0 =? u_node_id u) eqn:E; cbn in *; [now split|].
  apply Z.eqb_neq in E. contradiction.
Qed.

Lemma handleReviewAction_db action now select_ok update_ok w card :
  nth_error (reviewQueue (view w)) (currentCardIndex (view w)) = Some card ->
  forall req,
  snd (handleReviewAction LocalTZA action now select_ok update_ok w) = Some req ->
  db (fst (handleReviewAction LocalTZA action now select_ok update_ok w))
  = update_node req update_ok (db w).
Proof.
  intros Hcard req. unfold handleReviewAction. rewrite Hcard. cbn.
  intros [= <-]. reflexivity.
Qed.

(** *** The handler and its steps *)

Lemma TimeClip_valid t : Z.abs t <= JSDate.maxTime -> JSDate.TimeClip t = Some t.
Proof.
  intros H. unfold JSDate.TimeClip.
  destruct (Z.abs t <=? JSDate.maxTime) eqn:E; [reflexivity|].
  apply Z.leb_gt in E. lia.
Qed.

Lemma TimeClip_invalid t : JSDate.maxTime < Z.abs t -> JSDate.TimeClip t = None.
Proof.
  intros H. unfold JSDate.TimeClip.
  destruct (Z.abs t <=? JSDate.maxTime) eqn:E; [|reflexivity].
  apply Z.leb_le in E. lia.
Qed.

(** With a due date inside the range of Date the handler returns, and its run
    is [handleReviewAction]. *)
Lemma handleReviewAction_run_returns action now select_ok update_ok w card :
  currentCardOf (view w) = Some card ->
  Z.abs (nextDateFor LocalTZA now
           (nextIntervalFor action
              (select_single_node (node_id card) select_ok (db w))))
  <= JSDate.maxTime ->
  exists req,
    handleReviewAction_run LocalTZA action now select_ok update_ok w
    = Returned (fst (handleReviewAction LocalTZA action now select_ok
                       update_ok w)) req /\
    snd (handleReviewAction LocalTZA action now select_ok update_ok w)
    = Some req /\
    u_node_id req = node_id card /\
    u_interval_days req
    = nextIntervalFor action
        (select_single_node (node_id card) select_ok (db w)) /\
    u_next_review_at req = nextDateFor LocalTZA now (u_interval_days req).
Proof.
  intros Hcard Hvalid.
  unfold handleReviewAction_run, handleReviewAction, afterSelect, afterUpdate.
  unfold currentCardOf in Hcard. unfold currentCardOf. rewrite Hcard.
  rewrite (TimeClip_valid _ Hvalid). clear Hvalid.
  remember (nextDateFor LocalTZA now
              (nextIntervalFor action
                 (select_single_node (node_id card) select_ok (db w))))
    as t eqn:Ht.
  eexists. split; [|split; [reflexivity|]].
  - cbn [fst view db with_view reviewQueue currentCardIndex setStatusMsg].
    destruct action; reflexivity.
  - cbn [u_node_id u_interval_days u_next_review_at].
    split; [reflexivity|]. split; [reflexivity|]. exact Ht.
Qed.

Lemma handleReviewAction_run_throws action now select_ok update_ok w card :
  currentCardOf (view w) = Some card ->
  JSDate.maxTime
  < Z.abs (nextDateFor LocalTZA now
             (nextIntervalFor action
                (select_single_node (node_id card) select_ok (db w)))) ->
  handleReviewAction_run LocalTZA action now select_ok update_ok w
  = Threw (with_view w
             (setStatusMsg
                match action with
                | remember =>
                    MsgRemembered
                      (nextIntervalFor remember
                         (select_single_node (node_id card) select_ok (db w)))
                | forget => MsgForgot
                end (view w)))
          (nextIntervalFor action
             (select_single_node (node_id card) select_ok (db w))).
Proof.
  intros Hcard Hinvalid.
  unfold handleReviewAction_run, afterSelect. rewrite Hcard.
  rewrite (TimeClip_invalid _ Hinvalid).
  destruct action; reflexivity.
Qed.

Lemma handleReviewAction_run_interval action now select_ok update_ok w card :
  currentCardOf (view w) = Some card ->
  outcome_interval
    (handleReviewAction_run LocalTZA action now select_ok update_ok w)
  = Some (nextIntervalFor action
            (select_single_node (node_id card) select_ok (db w))).
Proof.
  intros Hcard. unfold handleReviewAction_run, afterSelect. rewrite Hcard.
  destruct (JSDate.TimeClip _); reflexivity.
Qed.

Lemma handleReviewAction_run_request action now select_ok update_ok w req :
  outcome_request
    (handleReviewAction_run LocalTZA action now select_ok update_ok w)
  = Some req ->
  outcome_interval
    (handleReviewAction_run LocalTZA action now select_ok update_ok w)
  = Some (u_interval_days req).
Proof.
  unfold handleReviewAction_run, afterSelect.
  destruct (currentCardOf (view w)) as [card|]; [|discriminate].
  destruct (JSDate.TimeClip _); [|discriminate].
  cbn [outcome_request outcome_interval]. intros [= <-]. reflexivity.
Qed.


Lemma advance_press w action :
  advance LocalTZA (quiescent w) (PressGrade action)
               = if cardShown (view w) && isFlipped (view w) then
                   match currentCardOf (view w) with
                   | Some card =>
                       {| current := w;
                          pending := [AwaitSelect (view w) action card] |}
                   | None => quiescent w
                   end
                 else quiescent w.
Proof. reflexivity. Qed.

Lemma advance_select w closure action card select_ok now :
  advance LocalTZA {| current := w; pending := [AwaitSelect closure action card] |}
    (SelectAnswer 0 select_ok now)
  = {| current := fst (fst (afterSelect LocalTZA action card now select_ok w));
       pending := match snd (afterSelect LocalTZA action card now select_ok w) with
                  | Some req => [AwaitUpdate closure req]
                  | None => []
                  end |}.
Proof.
  unfold advance. cbn [pending nth_error current].
  destruct (afterSelect LocalTZA action card now select_ok w) as [[w1 m] [req|]];
    reflexivity.
Qed.

Lemma advance_update w closure req update_ok :
  advance LocalTZA {| current := w; pending := [AwaitUpdate closure req] |}
    (UpdateAnswer 0 update_ok)
  = quiescent (afterUpdate closure req update_ok w).
Proof. reflexivity. Qed.

Lemma advance_idle w l :
  match l with Press _ | PressGrade _ => True | _ => 
  advance LocalTZA (quiescent w) l = quiescent w end.
Proof. destruct l as [e|a|[|k] so now|[|k] uo]; try exact I; reflexivity. Qed.

Lemma trace_of_idle w l : trace_of LocalTZA (quiescent w) l = [].
Proof. destruct l as [e|a|[|k] so now|[|k] uo]; reflexivity. Qed.

Lemma trace_of_press r action : trace_of LocalTZA r (PressGrade action) = [].
Proof. reflexivity. Qed.

Lemma trace_of_update r k update_ok :
  trace_of LocalTZA r (UpdateAnswer k update_ok) = [].
Proof. reflexivity. Qed.

Lemma trace_of_select w closure action card select_ok now :
  trace_of LocalTZA
    {| current := w; pending := [AwaitSelect closure action card] |}
    (SelectAnswer 0 select_ok now)
  = match snd (afterSelect LocalTZA action card now select_ok w) with
    | Some req => [Issued req]
    | None =>
        [Thrown (snd (fst (afterSelect LocalTZA action card now select_ok w)))]
    end.
Proof.
  unfold trace_of. cbn [pending nth_error current].
  destruct (afterSelect LocalTZA action card now select_ok w)
    as [[w1 m] [req|]]; reflexivity.
Qed.

(** One event handled to its end, in steps. *)
Lemma steps_of_handled e w :
  advance_all LocalTZA (steps_of e) (quiescent w)
  = quiescent (handled LocalTZA w e) /\
  trace_all LocalTZA (steps_of e) (quiescent w) = handled_trace LocalTZA w e.
Proof.
  destruct e as [m nowISO cards_ok nodes_ok|nowISO cards_ok nodes_ok|
                |action now select_ok update_ok];
    try (split; reflexivity).
  unfold steps_of, advance_all, handled, handled_trace, enabled.
  cbn [fold_left trace_all]. rewrite trace_of_press, trace_of_update.
  rewrite advance_press.
  unfold handleReviewAction_run.
  destruct (cardShown (view w) && isFlipped (view w)).
  2:{ rewrite trace_of_idle.
      rewrite (advance_idle w (SelectAnswer 0 select_ok now)).
      rewrite (advance_idle w (UpdateAnswer 0 update_ok)).
      split; reflexivity. }
  destruct (currentCardOf (view w)) as [card|].
  2:{ rewrite trace_of_idle.
      rewrite (advance_idle w (SelectAnswer 0 select_ok now)).
      rewrite (advance_idle w (UpdateAnswer 0 update_ok)).
      split; reflexivity. }
  rewrite trace_of_select, advance_select.
  destruct (afterSelect LocalTZA action card now select_ok w)
    as [[w1 m] [req|]]; cbn [fst snd].
  - rewrite advance_update. split; reflexivity.
  - change {| current := w1; pending := [] |} with (quiescent w1).
    rewrite (advance_idle w1 (UpdateAnswer 0 update_ok)). split; reflexivity.
Qed.

Lemma advance_all_app ls1 ls2 r :
  advance_all LocalTZA (ls1 ++ ls2) r
  = advance_all LocalTZA ls2 (advance_all LocalTZA ls1 r).
Proof. unfold advance_all. apply fold_left_app. Qed.

Lemma trace_all_app ls1 ls2 r :
  trace_all LocalTZA (ls1 ++ ls2) r
  = trace_all LocalTZA ls1 r
    ++ trace_all LocalTZA ls2 (advance_all LocalTZA ls1 r).
Proof.
  revert r. induction ls1 as [|l ls1 IH]; intros r; [reflexivity|].
  cbn [app trace_all]. rewrite IH, <- app_assoc. reflexivity.
Qed.

(** Events handled one after the other leave no call pending. *)
Lemma sequential_cons e es w :
  sequential LocalTZA (e :: es) w = sequential LocalTZA es (handled LocalTZA w e) /\
  sequential_trace LocalTZA (e :: es) w
  = handled_trace LocalTZA w e
    ++ sequential_trace LocalTZA es (handled LocalTZA w e).
Proof.
  unfold sequential, sequential_trace. cbn [flat_map].
  rewrite advance_all_app, trace_all_app.
  destruct (steps_of_handled e w) as [-> ->]. split; reflexivity.
Qed.

Lemma sequential_handled es w :
  sequential LocalTZA es w = quiescent (fold_left (handled LocalTZA) es w).
Proof.
  revert w. induction es as [|e es IH]; intros w; [reflexivity|].
  rewrite (proj1 (sequential_cons e es w)). rewrite IH. reflexivity.
Qed.


Lemma afterSelect_db action card now select_ok w :
  db (fst (fst (afterSelect LocalTZA action card now select_ok w))) = db w.
Proof. reflexivity. Qed.

(** The answer to the update is not read: the component state and the update
    issued are those of a failed write, which leaves the tables alone. *)
Lemma handled_whatever_update action now select_ok w :
  view (handled LocalTZA w (ClickGrade action now select_ok true))
  = view (handled LocalTZA w (ClickGrade action now select_ok false)) /\
  handled_trace LocalTZA w (ClickGrade action now select_ok true)
  = handled_trace LocalTZA w (ClickGrade action now select_ok false) /\
  db (handled LocalTZA w (ClickGrade action now select_ok false)) = db w.
Proof.
  unfold handled, handled_trace, enabled.
  destruct (cardShown (view w) && isFlipped (view w));
    [|repeat split].
  unfold handleReviewAction_run.
  destruct (currentCardOf (view w)) as [card|]; [|repeat split].
  pose proof (afterSelect_db action card now select_ok w) as Hdb.
  destruct (afterSelect LocalTZA action card now select_ok w)
    as [[w1 m] [req|]]; cbn [fst] in Hdb.
  - cbn [outcome_world outcome_trace]. unfold afterUpdate, update_node.
    cbn [view db]. repeat split. exact Hdb.
  - cbn [outcome_world outcome_trace]. repeat split. exact Hdb.
Qed.

(** A grade from a revealed card with a due date inside the range of Date:
    handled to its end it gives the state of [dispatch]. *)
Lemma handled_grade_returns action now select_ok update_ok w i card :
  mode (view w) = review ->
  session_of (view w) = Showing i true ->
  nth_error (reviewQueue (view w)) i = Some card ->
  Z.abs (nextDateFor LocalTZA now
           (nextIntervalFor action
              (select_single_node (node_id card) select_ok (db w))))
  <= JSDate.maxTime ->
  currentCardOf (view w) = Some card /\
  handled LocalTZA w (ClickGrade action now select_ok update_ok)
  = dispatch LocalTZA w (ClickGrade action now select_ok update_ok) /\
  dispatch LocalTZA w (ClickGrade action now select_ok update_ok)
  = fst (handleReviewAction LocalTZA action now select_ok update_ok w).
Proof.
  intros Hmode Hsess Hcard Hvalid.
  unfold session_of in Hsess.
  destruct (reviewQueue (view w)) as [|c q] eqn:Hq; [discriminate|].
  injection Hsess as Hidx Hflip.
  assert (Hen : enabled (view w) (ClickGrade action now select_ok update_ok)
                = true).
  { unfold enabled, cardShown. now rewrite Hmode, Hq, Hflip. }
  assert (Hcur : currentCardOf (view w) = Some card).
  { unfold currentCardOf. now rewrite Hq, Hidx. }
  split; [exact Hcur|].
  destruct (handleReviewAction_run_returns action now select_ok update_ok w
              card Hcur Hvalid) as (req & Hrun & _).
  unfold handled, dispatch. rewrite Hen, Hrun. split; reflexivity.
Qed.

(** C1. Grading Remembered on a card whose node has a readable interval
    [prev] below 2^53 / 5, where the product [prev * 2.5] of the code is
    exact, computes the interval 1 when [prev] is 0 and the ceiling of
    [prev * 2.5] when [prev] is positive: the integer [m] with
    [m - 1 < prev * 2.5 <= m].  The update, when the handler gets to issue
    it, carries that interval. *)
Theorem remembered_interval now select_ok update_ok w card old prev :
  currentCardOf (view w) = Some card ->
  select_single_node (node_id card) select_ok (db w) = Some old ->
  n_interval_days old = Some prev ->
  5 * prev < 2 ^ 53 ->
  let o := handleReviewAction_run LocalTZA remember now select_ok update_ok w in
  (prev = 0 -> outcome_interval o = Some 1) /\
  (0 < prev ->
   exists m, outcome_interval o = Some m /\
             (inject_Z (m - 1) < inject_Z prev * (5 # 2))%Q /\
             (inject_Z prev * (5 # 2) <= inject_Z m)%Q) /\
  (forall req, outcome_request o = Some req ->
     outcome_interval o = Some (u_interval_days req)).
Proof.
  intros Hcard Hold Hprev _ o. unfold o.
  rewrite (handleReviewAction_run_interval remember now select_ok update_ok w
             card Hcard).
  rewrite Hold. cbn [nextIntervalFor]. rewrite Hprev.
  unfold js_or, falsyNumber. split; [|split].
  - intros ->. reflexivity.
  - intros Hpos.
    assert (Hnz : (prev =? 0) = false) by (apply Z.eqb_neq; lia).
    rewrite Hnz, Hnz.
    exists (Math_ceil (inject_Z prev * (5 # 2))). split; [reflexivity|].
    apply Math_ceil_bounds.
  - intros req Hreq.
    pose proof (handleReviewAction_run_request remember now select_ok
                  update_ok w req Hreq) as Hint.
    rewrite (handleReviewAction_run_interval remember now select_ok update_ok
               w card Hcard) in Hint.
    rewrite Hold in Hint. cbn [nextIntervalFor] in Hint.
    rewrite Hprev in Hint. exact Hint.
Qed.

(** C2. Grading Forgotten sends the interval 1 whatever the node's previous
    interval is, and a successful write stores 1 on the node. *)
Theorem forgotten_interval now select_ok update_ok w card :
  nth_error (reviewQueue (view w)) (currentCardIndex (view w)) = Some card ->
  let r := handleReviewAction LocalTZA forget now select_ok update_ok w in
  sent_interval r = Some 1 /\
  (update_ok = true ->
   forall n, In n (knowledge_nodes (db (fst r))) ->
             n_id n = node_id card -> n_interval_days n = Some 1).
Proof.
  intros Hcard r.
  pose proof (handleReviewAction_current forget now select_ok update_ok w card
                Hcard) as Hsent.
  cbv zeta in Hsent. cbn [nextIntervalFor] in Hsent. split.
  - unfold sent_interval, r. rewrite Hsent. reflexivity.
  - intros Hok n Hin Hid. subst update_ok.
    unfold r in Hin.
    rewrite (handleReviewAction_db forget now select_ok true w card Hcard _
               Hsent) in Hin.
    destruct (update_node_stored _ _ _ Hin Hid) as [Hstored _].
    exact Hstored.
Qed.

(** C5. For either outcome the due time of a grade is the time the handler
    read the clock, moved by the computed interval in days on the local
    calendar.  When that time is inside the range of Date the update is
    issued with it and with the interval; where the zone keeps one offset it
    is the clock time plus the interval times 86 400 000 ms.  When it is
    outside, [toISOString] throws and no update is issued. *)
Theorem next_due_is_now_plus_interval action now select_ok update_ok w card :
  currentCardOf (view w) = Some card ->
  let o := handleReviewAction_run LocalTZA action now select_ok update_ok w in
  exists m,
    outcome_interval o = Some m /\
    (Z.abs (JSDate.UTC LocalTZA (JSDate.LocalTime LocalTZA now
                                 + m * JSDate.msPerDay)) <= JSDate.maxTime ->
     exists req,
       outcome_request o = Some req /\
       u_interval_days req = m /\
       u_next_review_at req
       = JSDate.UTC LocalTZA (JSDate.LocalTime LocalTZA now
                              + m * JSDate.msPerDay) /\
       (forall offset, (forall t b, LocalTZA t b = offset) ->
          u_next_review_at req = now + m * 86400000)) /\
    (JSDate.maxTime
     < Z.abs (JSDate.UTC LocalTZA (JSDate.LocalTime LocalTZA now
                                   + m * JSDate.msPerDay)) ->
     outcome_request o = None).
Proof.
  intros Hcard o. unfold o.
  exists (nextIntervalFor action
            (select_single_node (node_id card) select_ok (db w))).
  split; [apply handleReviewAction_run_interval; exact Hcard|].
  rewrite <- nextDateFor_local. split.
  - intros Hvalid.
    destruct (handleReviewAction_run_returns action now select_ok update_ok w
                card Hcard Hvalid) as (req & Hrun & _ & _ & Hint & Hdate).
    exists req. rewrite Hrun. split; [reflexivity|].
    split; [exact Hint|]. rewrite Hdate, Hint. split; [reflexivity|].
    intros offset Hz. apply (nextDateFor_fixed offset _ _ Hz).
  - intros Hinvalid.
    rewrite (handleReviewAction_run_throws action now select_ok update_ok w
               card Hcard Hinvalid).
    reflexivity.
Qed.


(** C10. When the node's interval cannot be read (no row came back, or the
    row's interval is null) either outcome sends the interval 1, and the
    cursor moves as after any grade. *)
Theorem unreadable_interval_counts_as_zero action now select_ok update_ok w
  card :
  nth_error (reviewQueue (view w)) (currentCardIndex (view w)) = Some card ->
  match select_single_node (node_id card) select_ok (db w) with
  | Some old => n_interval_days old = None
  | None => True
  end ->
  let r := handleReviewAction LocalTZA action now select_ok update_ok w in
  let i := currentCardIndex (view w) in
  let q := reviewQueue (view w) in
  sent_interval r = Some 1 /\
  isFlipped (view (fst r)) = false /\
  ((S i < List.length q)%nat ->
   reviewQueue (view (fst r)) = q /\ currentCardIndex (view (fst r)) = S i) /\
  ((S i = List.length q)%nat -> reviewQueue (view (fst r)) = []).
Proof.
  intros Hcard Hold r i q. split.
  - unfold sent_interval, r.
    rewrite (handleReviewAction_current action now select_ok update_ok w card
               Hcard).
    cbv zeta. cbn [option_map u_interval_days].
    destruct action; [|reflexivity].
    unfold nextIntervalFor.
    destruct (select_single_node (node_id card) select_ok (db w)) as [old|].
    + rewrite Hold. reflexivity.
    + reflexivity.
  - pose proof (handleReviewAction_view action now select_ok update_ok w card
                  Hcard) as Hview.
    cbv zeta in Hview. destruct Hview as (_ & Hf & Hnext & Hlast).
    repeat split; try assumption; intros; [apply Hnext|apply Hnext]; assumption.
Qed.


(** C4 as stated fails: a second click on a revealed card hides it again. *)
Lemma second_reveal_hides_again :
  session_of (view revealed0) = Showing 0 true /\
  session_of (view (dispatch fixedZone revealed0 ClickCard)) = Showing 0 false /\
  session_of (view (dispatch fixedZone revealed0 ClickCard)) <> Showing 0 true.
Proof. split; [reflexivity | split; [reflexivity | discriminate]]. Qed.

(** C4, amended. In review mode a click on the card toggles the reveal flag
    and touches nothing else: the state after the click is the state before
    it with the flag negated, so Showing(i, r) becomes Showing(i, not r) and
    two clicks restore the state; with no card shown a click does
    nothing. *)
Theorem card_click_toggles w :
  mode (view w) = review ->
  (forall i r, session_of (view w) = Showing i r ->
     dispatch LocalTZA w ClickCard
     = with_view w (setIsFlipped (negb r) (view w)) /\
     session_of (view (dispatch LocalTZA w ClickCard)) = Showing i (negb r) /\
     dispatch LocalTZA (dispatch LocalTZA w ClickCard) ClickCard = w) /\
  (session_of (view w) = Terminal -> dispatch LocalTZA w ClickCard = w).
Proof.
  destruct w as [[m s q i0 f] d]. cbn [view mode]. intros ->.
  unfold session_of, dispatch, enabled, cardShown, flipCard, with_view,
    setIsFlipped.
  cbn [view db mode reviewQueue currentCardIndex isFlipped statusMsg].
  destruct q as [|c q].
  - split; [intros i r [=]|reflexivity].
  - split; [|intros [=]].
    intros i r [= <- <-].
    cbn [view db mode reviewQueue currentCardIndex isFlipped statusMsg].
    rewrite negb_involutive. repeat split.
Qed.

(** The handler itself does not read the reveal flag: the reveal-then-grade
    order rests on the render condition of the grade buttons. *)
Lemma handleReviewAction_ignores_flag action now select_ok update_ok w card b :
  nth_error (reviewQueue (view w)) (currentCardIndex (view w)) = Some card ->
  handleReviewAction LocalTZA action now select_ok update_ok
    (with_view w (setIsFlipped b (view w)))
  = handleReviewAction LocalTZA action now select_ok update_ok w.
Proof.
  intros Hcard. unfold handleReviewAction.
  cbn [view with_view setIsFlipped reviewQueue currentCardIndex db].
  rewrite Hcard. destruct action; reflexivity.
Qed.

(** C6. In Showing(i, false) the grade buttons are not rendered: a grade
    attempted there changes nothing, the cursor included. *)
Theorem grade_needs_reveal action now select_ok update_ok w i :
  session_of (view w) = Showing i false ->
  dispatch LocalTZA w (ClickGrade action now select_ok update_ok) = w.
Proof.
  unfold session_of. intros Hsess.
  destruct (reviewQueue (view w)); [discriminate|].
  injection Hsess as _ Hflip.
  unfold dispatch, enabled. rewrite Hflip, andb_false_r. reflexivity.
Qed.

(** A failed write leaves the tables as they were. *)
Lemma failed_write_keeps_database action now select_ok w :
  db (fst (handleReviewAction LocalTZA action now select_ok false w)) = db w.
Proof.
  unfold handleReviewAction.
  destruct (nth_error (reviewQueue (view w)) (currentCardIndex (view w)));
    reflexivity.
Qed.

(** C7. The component state after a grade (mode, status line, queue, cursor,
    reveal flag) and the update issued are the same whether the write
    succeeds or fails, and a failed write leaves the tables as they were;
    after the failed write the session has advanced as after any grade: to
    Showing(i+1, false) on the same queue, or to the emptied queue from the
    last card. *)
Theorem write_failure_not_surfaced action now select_ok w :
  let failed := sequential LocalTZA [ClickGrade action now select_ok false] w in
  let stored := sequential LocalTZA [ClickGrade action now select_ok true] w in
  view (current failed) = view (current stored) /\
  pending failed = [] /\
  pending stored = [] /\
  sequential_trace LocalTZA [ClickGrade action now select_ok false] w
  = sequential_trace LocalTZA [ClickGrade action now select_ok true] w /\
  db (current failed) = db w /\
  (forall i card,
     mode (view w) = review ->
     session_of (view w) = Showing i true ->
     nth_error (reviewQueue (view w)) i = Some card ->
     Z.abs (nextDateFor LocalTZA now
              (nextIntervalFor action
                 (select_single_node (node_id card) select_ok (db w))))
     <= JSDate.maxTime ->
     sequential_trace LocalTZA [ClickGrade action now select_ok false] w
     <> [] /\
     ((S i < List.length (reviewQueue (view w)))%nat ->
      session_of (view (current failed)) = Showing (S i) false /\
      reviewQueue (view (current failed)) = reviewQueue (view w)) /\
     ((S i = List.length (reviewQueue (view w)))%nat ->
      session_of (view (current failed)) = Terminal /\
      reviewQueue (view (current failed)) = [])).
Proof.
  intros failed stored.
  destruct (handled_whatever_update action now select_ok w)
    as (Hview & Htrace & Hdb).
  assert (Hf : failed = quiescent (handled LocalTZA w
                                     (ClickGrade action now select_ok false))).
  { unfold failed. rewrite sequential_handled. reflexivity. }
  assert (Hs : stored = quiescent (handled LocalTZA w
                                     (ClickGrade action now select_ok true))).
  { unfold stored. rewrite sequential_handled. reflexivity. }
  assert (Ht : forall update_ok,
             sequential_trace LocalTZA
               [ClickGrade action now select_ok update_ok] w
             = handled_trace LocalTZA w
                 (ClickGrade action now select_ok update_ok)).
  { intros update_ok.
    rewrite (proj2 (sequential_cons
                      (ClickGrade action now select_ok update_ok) [] w)).
    apply app_nil_r. }
  rewrite Hf, Hs, !Ht. cbn [current pending quiescent].
  split; [symmetry; exact Hview|]. split; [reflexivity|].
  split; [reflexivity|]. split; [symmetry; exact Htrace|].
  split; [exact Hdb|].
  intros i card Hmode Hsess Hcard Hvalid.
  destruct (handled_grade_returns action now select_ok false w i card
              Hmode Hsess Hcard Hvalid) as (Hcur & Hhandled & Hdispatch).
  rewrite Hhandled, Hdispatch.
  split.
  - unfold handled_trace.
    assert (Hen : enabled (view w) (ClickGrade action now select_ok false)
                  = true).
    { unfold session_of in Hsess. unfold enabled, cardShown. rewrite Hmode.
      destruct (reviewQueue (view w)); [discriminate|].
      injection Hsess as _ ->. reflexivity. }
    rewrite Hen.
    destruct (handleReviewAction_run_returns action now select_ok false w
                card Hcur Hvalid) as (req & -> & _).
    discriminate.
  - pose proof (handleReviewAction_view action now select_ok false
                  w card Hcur) as Hv.
    cbv zeta in Hv. destruct Hv as (_ & Hfl & Hnext & Hlast).
    assert (Hidx : currentCardIndex (view w) = i).
    { unfold session_of in Hsess.
      destruct (reviewQueue (view w)); [discriminate|]. now injection Hsess. }
    rewrite Hidx in Hnext, Hlast.
    split; intros Hlen.
    + destruct (Hnext Hlen) as [Hq' Hi']. split; [|exact Hq'].
      unfold session_of. rewrite Hq', Hi', Hfl.
      destruct (reviewQueue (view w)); [cbn in Hlen; lia|reflexivity].
    + specialize (Hlast Hlen). split; [|exact Hlast].
      unfold session_of. now rewrite Hlast.
Qed.


(** *** The queue built by [fetchReviewCards] *)

Lemma is_some_find {A : Type} (p : A -> bool) (l : list A) :
  is_some (find p l) = existsb p l.
Proof.
  induction l as [|x l IH]; [reflexivity|].
  cbn [find existsb]. destruct (p x); [reflexivity|exact IH].
Qed.

Lemma existsb_filter {A : Type} (p q : A -> bool) (l : list A) :
  existsb p (filter q l) = existsb (fun x => q x && p x) l.
Proof.
  induction l as [|x l IH]; [reflexivity|].
  cbn [filter existsb]. destruct (q x); cbn [existsb andb]; now rewrite IH.
Qed.

Lemma existsb_pointwise {A : Type} (p q : A -> bool) (l : list A) :
  (forall x, p x = q x) -> existsb p l = existsb q l.
Proof.
  intros Hpq. induction l as [|x l IH]; [reflexivity|].
  cbn [existsb]. now rewrite Hpq, IH.
Qed.

(** A card of the batch finds a node among those the second request
    returned exactly when the table holds a due node with its [node_id]. *)
Lemma find_node_due nowISO nodes_ok d ids i :
  In i ids ->
  is_some (find_node (select_due_nodes ids nowISO nodes_ok d) i)
  = nodes_ok && has_due_node d nowISO i.
Proof.
  intros Hin. unfold select_due_nodes, has_due_node, find_node.
  destruct nodes_ok; [|reflexivity].
  rewrite is_some_find, existsb_filter. cbn [andb].
  apply existsb_pointwise. intros n.
  destruct (n_id n =? i) eqn:Hid.
  - apply Z.eqb_eq in Hid.
    assert (Hmem : existsb (Z.eqb (n_id n)) ids = true).
    { apply existsb_exists. exists i. split; [exact Hin|].
      now apply Z.eqb_eq. }
    rewrite Hmem. cbn [andb]. now rewrite andb_true_r.
  - now rewrite andb_false_r.
Qed.

Lemma validCards_filter nowISO nodes_ok d cards :
  filter (fun card =>
            is_some (find_node
                       (select_due_nodes (map c_node_id cards) nowISO nodes_ok d)
                       (c_node_id card))) cards
  = filter (fun c => nodes_ok && has_due_node d nowISO (c_node_id c)) cards.
Proof.
  apply filter_ext_in. intros c Hc.
  apply find_node_due. now apply in_map.
Qed.

Lemma card_of_review_entry nodesData c :
  card_of (review_entry nodesData c) = c.
Proof. destruct c. reflexivity. Qed.

Lemma map_card_of_review_entry nodesData cards :
  map card_of (map (review_entry nodesData) cards) = cards.
Proof.
  rewrite map_map. induction cards as [|c cards IH]; [reflexivity|].
  cbn [map]. now rewrite card_of_review_entry, IH.
Qed.

(** The queue [fetchReviewCards] leaves, in closed form. *)
Lemma fetchReviewCards_queue nowISO cards_ok nodes_ok w :
  reviewQueue (view (fetchReviewCards nowISO cards_ok nodes_ok w))
  = let cards := fetched_cards cards_ok (db w) in
    let nodesData :=
      select_due_nodes (map c_node_id cards) nowISO nodes_ok (db w) in
    map (review_entry nodesData)
        (filter (fun card => is_some (find_node nodesData (c_node_id card)))
                cards).
Proof.
  unfold fetchReviewCards, fetched_cards.
  destruct (select_flashcards 50 cards_ok (db w)) as [[|c cs]|];
    reflexivity.
Qed.

(** C8. The queue built on entering review mode holds, in arrival order,
    exactly the fetched flashcards whose [node_id] names a node with
    [next_review_at <= nowISO] that the node request returned; every entry
    has such a node, and a fetched card whose node does not exist is not in
    the queue. *)
Theorem review_queue_is_due_cards nowISO cards_ok nodes_ok w :
  let q := reviewQueue (view (fetchReviewCards nowISO cards_ok nodes_ok w)) in
  let fetched := fetched_cards cards_ok (db w) in
  map card_of q
  = filter (fun c => nodes_ok && has_due_node (db w) nowISO (c_node_id c))
           fetched /\
  Forall (fun e => exists n t,
            In n (knowledge_nodes (db w)) /\ n_id n = node_id e /\
            n_next_review_at n = Some t /\ t <= nowISO) q /\
  (forall c, In c fetched ->
     (forall n, In n (knowledge_nodes (db w)) -> n_id n <> c_node_id c) ->
     ~ In c (map card_of q)).
Proof.
  intros q fetched.
  assert (Hq : map card_of q
               = filter (fun c => nodes_ok
                                  && has_due_node (db w) nowISO (c_node_id c))
                        fetched).
  { unfold q. rewrite fetchReviewCards_queue. cbv zeta.
    rewrite map_card_of_review_entry. apply validCards_filter. }
  assert (Hdue : forall c, In c (map card_of q) ->
            exists n t, In n (knowledge_nodes (db w)) /\
                        n_id n = c_node_id c /\
                        n_next_review_at n = Some t /\ t <= nowISO).
  { intros c Hc. rewrite Hq in Hc. apply filter_In in Hc as [_ Hc].
    apply andb_prop in Hc as [_ Hc]. unfold has_due_node in Hc.
    apply existsb_exists in Hc as [n [Hn Hc]].
    apply andb_prop in Hc as [Hid Hlte]. apply Z.eqb_eq in Hid.
    unfold lte in Hlte.
    destruct (n_next_review_at n) as [t|] eqn:Ht; [|discriminate].
    apply Z.leb_le in Hlte. exists n, t. repeat split; assumption. }
  split; [exact Hq|]. split.
  - apply Forall_forall. intros e He.
    apply (Hdue (card_of e)). now apply in_map.
  - intros c _ Hnone Hc.
    destruct (Hdue c Hc) as (n & t & Hn & Hid & _).
    exact (Hnone n Hn Hid).
Qed.

(** *** The mastery flag *)

Lemma mastery_flags_update u ok d :
  mastery_flags (update_node u ok d) = mastery_flags d.
Proof.
  destruct ok; [|reflexivity].
  unfold mastery_flags, update_node. cbn [knowledge_nodes].
  rewrite map_map. apply map_ext. intros n. unfold apply_update.
  destruct (n_id n =? u_node_id u); reflexivity.
Qed.

Lemma fetchReviewCards_db nowISO cards_ok nodes_ok w :
  db (fetchReviewCards nowISO cards_ok nodes_ok w) = db w.
Proof.
  unfold fetchReviewCards.
  destruct (select_flashcards 50 cards_ok (db w)) as [[|c cs]|]; reflexivity.
Qed.

Lemma fetchAtlasCards_world cards_ok w :
  db (fetchAtlasCards cards_ok w) = db w /\
  reviewQueue (view (fetchAtlasCards cards_ok w)) = reviewQueue (view w).
Proof.
  unfold fetchAtlasCards.
  destruct (select_flashcards 100 cards_ok (db w)); split; reflexivity.
Qed.

Lemma fetchReviewCards_unmastered nowISO cards_ok nodes_ok w :
  Forall (fun e => entry_mastered e = false)
         (reviewQueue (view (fetchReviewCards nowISO cards_ok nodes_ok w))).
Proof.
  rewrite fetchReviewCards_queue. cbv zeta.
  apply Forall_forall. intros e He.
  apply in_map_iff in He as [c [<- _]]. reflexivity.
Qed.

Lemma handleReviewAction_queue action now select_ok update_ok w :
  let w' := fst (handleReviewAction LocalTZA action now select_ok update_ok w) in
  mastery_flags (db w') = mastery_flags (db w) /\
  (reviewQueue (view w') = reviewQueue (view w) \/ reviewQueue (view w') = []).
Proof.
  cbv zeta. unfold handleReviewAction.
  destruct (nth_error (reviewQueue (view w)) (currentCardIndex (view w)));
    [|split; [reflexivity|left; reflexivity]].
  cbn [fst view db]. split; [apply mastery_flags_update|].
  match goal with
  | |- context [if ?b then _ else _] => destruct b
  end; destruct action; [left|left|right|right]; reflexivity.
Qed.

Lemma modeEffect_mastery nowISO cards_ok nodes_ok w :
  mastery_flags (db (modeEffect nowISO cards_ok nodes_ok w))
  = mastery_flags (db w) /\
  Forall (fun e => entry_mastered e = false \/ In e (reviewQueue (view w)))
         (reviewQueue (view (modeEffect nowISO cards_ok nodes_ok w))).
Proof.
  unfold modeEffect. destruct (mode (view w)).
  - split; [reflexivity|]. apply Forall_forall. intros e He. now right.
  - rewrite fetchReviewCards_db. split; [reflexivity|].
    eapply Forall_impl;
      [|apply (fetchReviewCards_unmastered nowISO cards_ok nodes_ok)].
    intros e He. now left.
  - destruct (fetchAtlasCards_world cards_ok w) as [Hd Hq].
    rewrite Hd, Hq. split; [reflexivity|].
    apply Forall_forall. intros e He. now right.
Qed.

Lemma dispatch_mastery w ev :
  mastery_flags (db (dispatch LocalTZA w ev)) = mastery_flags (db w) /\
  Forall (fun e => entry_mastered e = false \/ In e (reviewQueue (view w)))
         (reviewQueue (view (dispatch LocalTZA w ev))).
Proof.
  assert (Hsame : forall q : list Flashcard,
            Forall (fun e => entry_mastered e = false \/ In e q) q).
  { intros q. apply Forall_forall. intros e He. now right. }
  unfold dispatch.
  destruct (enabled (view w) ev); [|split; [reflexivity|apply Hsame]].
  destruct ev as [m nowISO cards_ok nodes_ok|nowISO cards_ok nodes_ok|
                 |action now select_ok update_ok].
  - unfold changeMode.
    destruct (ModeType_eqb m (mode (view w)));
      [split; [reflexivity|apply Hsame]|].
    apply (modeEffect_mastery nowISO cards_ok nodes_ok
             (with_view w (setMode m (view w)))).
  - apply modeEffect_mastery.
  - split; [reflexivity|apply Hsame].
  - destruct (handleReviewAction_queue action now select_ok update_ok w)
      as [Hd [Hq|Hq]]; rewrite Hq; (split; [exact Hd|]).
    + apply Hsame.
    + constructor.
Qed.

Lemma run_mastery es :
  forall w,
  Forall (fun e => entry_mastered e = false) (reviewQueue (view w)) ->
  mastery_flags (db (run LocalTZA es w)) = mastery_flags (db w) /\
  Forall (fun e => entry_mastered e = false)
         (reviewQueue (view (run LocalTZA es w))).
Proof.
  induction es as [|ev es IH]; intros w Hw; [split; [reflexivity|exact Hw]|].
  cbn [run fold_left].
  destruct (dispatch_mastery w ev) as [Hd Hq].
  assert (Hw' : Forall (fun e => entry_mastered e = false)
                       (reviewQueue (view (dispatch LocalTZA w ev)))).
  { rewrite Forall_forall in *. intros e He.
    destruct (Hq e He) as [Hm|Hold]; [exact Hm|exact (Hw e Hold)]. }
  destruct (IH _ Hw') as [IHd IHq]. unfold run in IHd, IHq.
  split; [now rewrite IHd|exact IHq].
Qed.

(** C9. No modelled operation sets a mastery flag: a mode change or session
    change (which build the review session), a click on the card and a grade
    each leave every node's flag in the tables as it was, and every entry of the new queue
    either was in the old queue or carries the flag false; so after any
    sequence of them from mount the stored flags are the initial ones and all
    queue entries carry false. *)
Theorem mastery_never_set :
  (forall w ev,
     mastery_flags (db (dispatch LocalTZA w ev)) = mastery_flags (db w) /\
     Forall (fun e => entry_mastered e = false \/ In e (reviewQueue (view w)))
            (reviewQueue (view (dispatch LocalTZA w ev)))) /\
  (forall d es,
     let w := run LocalTZA es {| view := initial_ui; db := d |} in
     mastery_flags (db w) = mastery_flags d /\
     Forall (fun e => entry_mastered e = false) (reviewQueue (view w))).
Proof.
  split; [exact dispatch_mastery|].
  intros d es w. unfold w.
  apply (run_mastery es {| view := initial_ui; db := d |}).
  constructor.
Qed.

End Properties.

(** *** The cursor stays inside the queue *)

Lemma fetchReviewCards_cursor_ok nowISO cards_ok nodes_ok w :
  cursor_ok (view (fetchReviewCards nowISO cards_ok nodes_ok w)).
Proof.
  unfold cursor_ok, fetchReviewCards.
  destruct (select_flashcards 50 cards_ok (db w)) as [[|c cs]|];
    try (left; reflexivity).
  cbv zeta.
  match goal with
  | |- context [map ?f ?l] => destruct (map f l) as [|e q] eqn:Hq
  end.
  - left. reflexivity.
  - right. cbn. lia.
Qed.

Lemma modeEffect_cursor_ok nowISO cards_ok nodes_ok w :
  cursor_ok (view w) -> cursor_ok (view (modeEffect nowISO cards_ok nodes_ok w)).
Proof.
  intros Hw. unfold modeEffect. destruct (mode (view w)).
  - exact Hw.
  - apply fetchReviewCards_cursor_ok.
  - unfold cursor_ok, fetchAtlasCards.
    destruct (select_flashcards 100 cards_ok (db w)); exact Hw.
Qed.

Lemma dispatch_cursor_ok tz w ev :
  cursor_ok (view w) -> cursor_ok (view (dispatch tz w ev)).
Proof.
  intros Hw. unfold dispatch.
  destruct (enabled (view w) ev); [|exact Hw].
  destruct ev as [m nowISO cards_ok nodes_ok|nowISO cards_ok nodes_ok|
                 |action now select_ok update_ok].
  - unfold changeMode.
    destruct (ModeType_eqb m (mode (view w))); [exact Hw|].
    apply modeEffect_cursor_ok. exact Hw.
  - apply modeEffect_cursor_ok. exact Hw.
  - exact Hw.
  - destruct (nth_error (reviewQueue (view w)) (currentCardIndex (view w)))
      as [card|] eqn:Hcard.
    + destruct (handleReviewAction_view tz action now select_ok update_ok w
                  card Hcard) as (_ & _ & Hnext & Hlast).
      assert (Hi : (currentCardIndex (view w)
                    < List.length (reviewQueue (view w)))%nat)
        by (apply nth_error_Some; congruence).
      destruct (Nat.eq_dec (S (currentCardIndex (view w)))
                           (List.length (reviewQueue (view w)))) as [Heq|Hne].
      * left. exact (Hlast Heq).
      * right. destruct (Hnext ltac:(lia)) as [Hq Hidx].
        rewrite Hq, Hidx. lia.
    + unfold handleReviewAction. rewrite Hcard. exact Hw.
Qed.

(** *** Instances on the sample data *)

Lemma remembered_interval_witness :
  (currentCardOf (view revealed1) = Some sampleEntry1 /\
   select_single_node (node_id sampleEntry1) true (db revealed1)
   = Some sampleNode2 /\
   n_interval_days sampleNode2 = Some 4 /\
   5 * 4 < 2 ^ 53) /\
  outcome_interval
    (handleReviewAction_run fixedZone remember sampleNow true true revealed1)
  = Some 10.
Proof.
  split; [repeat split; reflexivity|].
  destruct (remembered_interval fixedZone sampleNow true true revealed1
              sampleEntry1 sampleNode2 4 eq_refl eq_refl eq_refl eq_refl)
    as (_ & Hpos & _).
  destruct (Hpos eq_refl) as (m & Hm & _ & _).
  rewrite Hm. symmetry. exact Hm.
Defined.

Lemma forgotten_interval_witness :
  nth_error (reviewQueue (view revealed1)) (currentCardIndex (view revealed1))
  = Some sampleEntry1 /\
  sent_interval (handleReviewAction fixedZone forget sampleNow true true
                   revealed1) = Some 1.
Proof.
  split; [reflexivity|].
  apply (forgotten_interval fixedZone sampleNow true true revealed1
           sampleEntry1 eq_refl).
Defined.


Lemma card_click_toggles_witness :
  mode (view entered) = review /\
  dispatch fixedZone entered ClickCard
  = with_view entered (setIsFlipped true (view entered)) /\
  session_of (view (dispatch fixedZone entered ClickCard)) = Showing 0 true /\
  dispatch fixedZone (dispatch fixedZone entered ClickCard) ClickCard = entered.
Proof.
  split; [reflexivity|].
  apply (proj1 (card_click_toggles fixedZone entered eq_refl) 0%nat false).
  reflexivity.
Defined.

Lemma next_due_is_now_plus_interval_witness :
  currentCardOf (view revealed1) = Some sampleEntry1 /\
  exists m,
    outcome_interval
      (handleReviewAction_run fixedZone remember sampleNow true true
         revealed1) = Some m /\
    exists req,
      outcome_request
        (handleReviewAction_run fixedZone remember sampleNow true true
           revealed1) = Some req /\
      u_next_review_at req = sampleNow + m * 86400000.
Proof.
  split; [reflexivity|].
  destruct (next_due_is_now_plus_interval fixedZone remember sampleNow true
              true revealed1 sampleEntry1 eq_refl)
    as (m & Hm & Hvalid & _).
  exists m. split; [exact Hm|].
  assert (Hten : m = 10).
  { assert (H : Some m = Some 10) by (rewrite <- Hm; reflexivity).
    now injection H. }
  destruct Hvalid as (req & Hreq & _ & _ & Hfixed).
  { rewrite Hten. apply Z.leb_le. reflexivity. }
  exists req. split; [exact Hreq|].
  apply (Hfixed 28800000). reflexivity.
Defined.

Lemma write_failure_not_surfaced_witness :
  (mode (view revealed1) = review /\
   session_of (view revealed1) = Showing 1 true /\
   nth_error (reviewQueue (view revealed1)) 1 = Some sampleEntry1) /\
  db (current (sequential fixedZone
                 [ClickGrade remember sampleNow true false] revealed1))
  = db revealed1 /\
  session_of
    (view (current (sequential fixedZone
                      [ClickGrade remember sampleNow true false] revealed1)))
  = Showing 2 false.
Proof.
  split; [repeat split; reflexivity|].
  destruct (write_failure_not_surfaced fixedZone remember sampleNow true
              revealed1) as (_ & _ & _ & _ & Hdb & Hadvance).
  split; [exact Hdb|].
  destruct (Hadvance 1%nat sampleEntry1) as (_ & Hnext & _);
    [reflexivity|reflexivity|reflexivity|apply Z.leb_le; reflexivity|].
  destruct Hnext as [Hsess _]; [apply Nat.ltb_lt; reflexivity|].
  exact Hsess.
Defined.

Lemma grade_needs_reveal_witness :
  session_of (view entered) = Showing 0 false /\
  dispatch fixedZone entered (ClickGrade remember sampleNow true true)
  = entered.
Proof.
  split; [reflexivity|].
  apply (grade_needs_reveal fixedZone remember sampleNow true true entered
           0%nat eq_refl).
Defined.

Lemma review_queue_is_due_cards_witness :
  map c_id (map card_of (reviewQueue (view entered))) = [10; 11; 14].
Proof.
  change (reviewQueue (view entered))
    with (reviewQueue
            (view (fetchReviewCards 1000 true true
                     (with_view mounted (setMode review (view mounted)))))).
  rewrite (proj1 (review_queue_is_due_cards 1000 true true
                    (with_view mounted (setMode review (view mounted))))).
  reflexivity.
Defined.

Lemma unreadable_interval_counts_as_zero_witness :
  (nth_error (reviewQueue (view revealed2)) (currentCardIndex (view revealed2))
   = Some sampleEntry2 /\
   select_single_node (node_id sampleEntry2) true (db revealed2)
   = Some sampleNode4 /\
   n_interval_days sampleNode4 = None) /\
  sent_interval (handleReviewAction fixedZone remember sampleNow true true
                   revealed2) = Some 1.
Proof.
  split; [repeat split; reflexivity|].
  apply (unreadable_interval_counts_as_zero fixedZone remember sampleNow true
           true revealed2 sampleEntry2 eq_refl eq_refl).
Defined.

(** Where the offset changes between the grade and the due day, the due
    instant is the same local wall-clock time one calendar day later, here
    25 hours after the grade. *)
Example next_due_across_offset_change :
  nextDateFor changingZone 1761998400000 1 = 1761998400000 + 90000000.
Proof. reflexivity. Qed.

(** The specification's sample intervals: 0, 1 and 4 days give 1, 3 and 10. *)
Example scheduler_samples :
  map (fun prev =>
         nextIntervalFor remember
           (Some {| n_id := 1; n_category := None; n_is_mastered := false;
                    n_interval_days := Some prev;
                    n_next_review_at := None |}))
      [0; 1; 4]
  = [1; 3; 10].
Proof. reflexivity. Qed.

(** The end-to-end scenario on the sample queue: the first card is graded
    Remembered from interval 0, the second Forgotten from interval 4, both
    get interval 1, and the session is on the third card. *)
Example sample_session :
  session_of (view entered) = Showing 0 false /\
  session_of (view revealed0) = Showing 0 true /\
  session_of (view revealed1) = Showing 1 true /\
  session_of (view revealed2) = Showing 2 true /\
  map n_interval_days (knowledge_nodes (db revealed2))
  = [Some 1; Some 1; None; None].
Proof. repeat split; reflexivity. Qed.

(** * Further properties *)

(** ** The interval rule *)

Lemma nextIntervalFor_bounds action oldNode prev :
  match oldNode with Some n => n_interval_days n | None => None end
  = Some prev ->
  (0 <= prev -> 1 <= nextIntervalFor action oldNode) /\
  (action = remember -> prev <> 0 ->
   nextIntervalFor action oldNode = (5 * prev + 1) / 2).
Proof.
  intros Hprev. unfold nextIntervalFor. rewrite Hprev.
  unfold js_or, falsyNumber. split.
  - intros Hpos. destruct action; [|lia].
    destruct (prev =? 0) eqn:E; [reflexivity|].
    rewrite E. rewrite Math_ceil_times.
    apply Z.eqb_neq in E. Z.div_mod_to_equations. lia.
  - intros -> Hnz. apply Z.eqb_neq in Hnz. rewrite Hnz, Hnz.
    apply Math_ceil_times.
Qed.

(** X1. When the stored interval [prev] is not negative and below 2^53 / 5,
    where the product of the code is exact, a grade of either outcome
    computes an interval of at least one day; a Remembered grade of a
    positive [prev] computes [(5 * prev + 1) / 2], which is longer than
    [prev] and at most three times [prev].  The update, when the handler
    gets to issue it, carries that interval. *)
Theorem sent_interval_grows tz action now select_ok update_ok w card old prev :
  currentCardOf (view w) = Some card ->
  select_single_node (node_id card) select_ok (db w) = Some old ->
  n_interval_days old = Some prev ->
  0 <= prev ->
  5 * prev < 2 ^ 53 ->
  let o := handleReviewAction_run tz action now select_ok update_ok w in
  exists m,
    outcome_interval o = Some m /\
    1 <= m /\
    (action = remember -> 0 < prev ->
     m = (5 * prev + 1) / 2 /\ prev < m <= 3 * prev) /\
    (forall req, outcome_request o = Some req -> u_interval_days req = m).
Proof.
  intros Hcard Hold Hprev Hpos _ o. unfold o.
  exists (nextIntervalFor action (Some old)).
  pose proof (handleReviewAction_run_interval tz action now select_ok
                update_ok w card Hcard) as Hint.
  rewrite Hold in Hint. split; [exact Hint|].
  destruct (nextIntervalFor_bounds action (Some old) prev Hprev)
    as [Hone Hform].
  split; [exact (Hone Hpos)|]. split.
  - intros Hact Hlt. rewrite (Hform Hact) by lia.
    split; [reflexivity|]. Z.div_mod_to_equations. lia.
  - intros req Hreq.
    apply (handleReviewAction_run_request tz) in Hreq.
    rewrite Hint in Hreq. now injection Hreq.
Qed.

(** X2. A negative stored interval [prev] above -2^53 / 5 is not clamped: a
    Remembered grade computes [(5 * prev + 1) / 2], which is negative.  In a
    zone with one offset the due time is the clock reading plus that many
    days: when it is inside the range of Date the update is issued with it,
    and it lies before the clock reading; when it is outside no update is
    issued. *)
Theorem negative_interval_not_clamped tz now select_ok update_ok w card old
  prev offset :
  currentCardOf (view w) = Some card ->
  select_single_node (node_id card) select_ok (db w) = Some old ->
  n_interval_days old = Some prev ->
  prev < 0 ->
  - 2 ^ 53 < 5 * prev ->
  (forall t b, tz t b = offset) ->
  let o := handleReviewAction_run tz remember now select_ok update_ok w in
  let m := (5 * prev + 1) / 2 in
  outcome_interval o = Some m /\
  m < 0 /\
  (Z.abs (now + m * 86400000) <= JSDate.maxTime ->
   exists req,
     outcome_request o = Some req /\
     u_interval_days req = m /\
     u_next_review_at req = now + m * 86400000 /\
     u_next_review_at req < now) /\
  (JSDate.maxTime < Z.abs (now + m * 86400000) -> outcome_request o = None).
Proof.
  intros Hcard Hold Hprev Hneg _ Hzone o m.
  destruct (nextIntervalFor_bounds remember (Some old) prev Hprev)
    as [_ Hform].
  specialize (Hform eq_refl ltac:(lia)). fold m in Hform.
  assert (Hm : m < 0) by (unfold m; Z.div_mod_to_equations; lia).
  assert (Hdate : nextDateFor tz now
                    (nextIntervalFor remember
                       (select_single_node (node_id card) select_ok (db w)))
                  = now + m * 86400000).
  { rewrite Hold, Hform. apply (nextDateFor_fixed tz offset now m Hzone). }
  unfold o. split.
  - rewrite (handleReviewAction_run_interval tz remember now select_ok
               update_ok w card Hcard). now rewrite Hold, Hform.
  - split; [exact Hm|]. split.
    + intros Hvalid. rewrite <- Hdate in Hvalid.
      destruct (handleReviewAction_run_returns tz remember now select_ok
                  update_ok w card Hcard Hvalid)
        as (req & Hrun & _ & _ & Hint & Hnext).
      exists req. rewrite Hrun. split; [reflexivity|].
      rewrite Hold, Hform in Hint. split; [exact Hint|].
      rewrite Hnext, Hint, (nextDateFor_fixed tz offset now m Hzone).
      unfold JSDate.msPerDay. split; [reflexivity|].
      clear - Hm. clearbody m. lia.
    + intros Hinvalid. rewrite <- Hdate in Hinvalid.
      rewrite (handleReviewAction_run_throws tz remember now select_ok
                 update_ok w card Hcard Hinvalid).
      reflexivity.
Qed.

(** ** What a grade writes *)

Lemma apply_update_other u n :
  n_id n <> u_node_id u -> apply_update u n = n.
Proof.
  intros Hne. unfold apply_update.
  destruct (n_id n =? u_node_id u) eqn:E; [|reflexivity].
  apply Z.eqb_eq in E. contradiction.
Qed.

Lemma apply_update_keeps u n :
  n_id (apply_update u n) = n_id n /\
  n_category (apply_update u n) = n_category n /\
  n_is_mastered (apply_update u n) = n_is_mastered n.
Proof.
  unfold apply_update. destruct (n_id n =? u_node_id u); repeat split.
Qed.

Lemma update_node_frame u ok d :
  flashcards (update_node u ok d) = flashcards d /\
  map (fun n => (n_id n, n_category n, n_is_mastered n))
      (knowledge_nodes (update_node u ok d))
  = map (fun n => (n_id n, n_category n, n_is_mastered n))
        (knowledge_nodes d) /\
  filter (fun n => negb (n_id n =? u_node_id u))
         (knowledge_nodes (update_node u ok d))
  = filter (fun n => negb (n_id n =? u_node_id u)) (knowledge_nodes d).
Proof.
  destruct ok; [|repeat split]. cbn [update_node flashcards knowledge_nodes].
  split; [reflexivity|]. split.
  - rewrite map_map. apply map_ext. intros n.
    destruct (apply_update_keeps u n) as (-> & -> & ->). reflexivity.
  - induction (knowledge_nodes d) as [|n ns IH]; [reflexivity|].
    cbn [map filter].
    destruct (apply_update_keeps u n) as (Hid & _ & _). rewrite Hid.
    destruct (n_id n =? u_node_id u) eqn:E; cbn [negb]; [exact IH|].
    rewrite apply_update_other by (now apply Z.eqb_neq). now rewrite IH.
Qed.

(** The update a grade sends and the tables it leaves. *)
Lemma handleReviewAction_request tz action now select_ok update_ok w card :
  nth_error (reviewQueue (view w)) (currentCardIndex (view w)) = Some card ->
  exists req,
    snd (handleReviewAction tz action now select_ok update_ok w) = Some req /\
    db (fst (handleReviewAction tz action now select_ok update_ok w))
    = update_node req update_ok (db w) /\
    u_node_id req = node_id card /\
    u_interval_days req
    = nextIntervalFor action
        (select_single_node (node_id card) select_ok (db w)) /\
    u_next_review_at req = nextDateFor tz now (u_interval_days req).
Proof.
  intros Hcard. unfold handleReviewAction. rewrite Hcard.
  eexists. split; [reflexivity|]. repeat split.
Qed.

(** X3. A grade writes nothing but the interval and the due time of the
    rows of the graded card's node: the flashcards table, every row's
    identifier, category and mastery flag, and the rows of all other nodes
    are as before. *)
Theorem grade_touches_only_its_node tz action now select_ok update_ok w card :
  nth_error (reviewQueue (view w)) (currentCardIndex (view w)) = Some card ->
  let d' := db (fst (handleReviewAction tz action now select_ok update_ok w)) in
  flashcards d' = flashcards (db w) /\
  map (fun n => (n_id n, n_category n, n_is_mastered n)) (knowledge_nodes d')
  = map (fun n => (n_id n, n_category n, n_is_mastered n))
        (knowledge_nodes (db w)) /\
  filter (fun n => negb (n_id n =? node_id card)) (knowledge_nodes d')
  = filter (fun n => negb (n_id n =? node_id card)) (knowledge_nodes (db w)).
Proof.
  intros Hcard d'. unfold d'.
  destruct (handleReviewAction_request tz action now select_ok update_ok w
              card Hcard) as (req & _ & Hdb & Hrid & _ & _).
  rewrite Hdb, <- Hrid. apply update_node_frame.
Qed.

(** ** The queue and the tables *)

(** Every entry of the queue [fetchReviewCards] builds comes from a fetched
    card and the node the second request returned for it. *)
Lemma fetchReviewCards_entry nowISO cards_ok nodes_ok w e :
  In e (reviewQueue (view (fetchReviewCards nowISO cards_ok nodes_ok w))) ->
  exists c n,
    In c (fetched_cards cards_ok (db w)) /\
    In n (knowledge_nodes (db w)) /\
    n_id n = c_node_id c /\
    lte (n_next_review_at n) nowISO = true /\
    find_node (select_due_nodes (map c_node_id (fetched_cards cards_ok (db w)))
                 nowISO nodes_ok (db w)) (c_node_id c) = Some n /\
    e = review_entry
          (select_due_nodes (map c_node_id (fetched_cards cards_ok (db w)))
             nowISO nodes_ok (db w)) c.
Proof.
  rewrite fetchReviewCards_queue. cbv zeta. intros He.
  apply in_map_iff in He as [c [<- Hc]].
  apply filter_In in Hc as [Hc Hfound].
  destruct (find_node
              (select_due_nodes (map c_node_id (fetched_cards cards_ok (db w)))
                 nowISO nodes_ok (db w)) (c_node_id c)) as [n|] eqn:Hfind;
    [|discriminate].
  exists c, n.
  assert (Hn : In n (knowledge_nodes (db w)) /\ n_id n = c_node_id c /\
               lte (n_next_review_at n) nowISO = true).
  { unfold find_node, select_due_nodes in Hfind.
    destruct nodes_ok; [|discriminate].
    apply find_some in Hfind as [Hin Hid].
    apply filter_In in Hin as [Hin Hdue].
    apply andb_prop in Hdue as [_ Hdue]. apply Z.eqb_eq in Hid.
    repeat split; assumption. }
  destruct Hn as (Hin & Hid & Hdue). repeat split; assumption.
Qed.

Lemma nextIntervalFor_positive action oldNode :
  (forall old prev,
     oldNode = Some old -> n_interval_days old = Some prev -> 0 <= prev) ->
  1 <= nextIntervalFor action oldNode.
Proof.
  intros Hstored. destruct oldNode as [old|].
  - destruct (n_interval_days old) as [prev|] eqn:Hprev.
    + apply (proj1 (nextIntervalFor_bounds action (Some old) prev Hprev)).
      exact (Hstored old prev eq_refl Hprev).
    + unfold nextIntervalFor. rewrite Hprev.
      destruct action; [reflexivity|lia].
  - destruct action; [reflexivity|unfold nextIntervalFor; lia].
Qed.

(** The due time on the rows of the graded node after a successful write. *)
Lemma handleReviewAction_written tz action now select_ok w card n :
  nth_error (reviewQueue (view w)) (currentCardIndex (view w)) = Some card ->
  In n (knowledge_nodes
          (db (fst (handleReviewAction tz action now select_ok true w)))) ->
  n_id n = node_id card ->
  n_next_review_at n
  = Some (nextDateFor tz now
            (nextIntervalFor action
               (select_single_node (node_id card) select_ok (db w)))).
Proof.
  intros Hcard Hn Hid.
  destruct (handleReviewAction_request tz action now select_ok true w card
              Hcard) as (req & _ & Hdb & Hrid & Hint & Hnext).
  rewrite Hdb in Hn. rewrite <- Hrid in Hid.
  destruct (update_node_stored req (db w) n Hn Hid) as [_ Hstored].
  rewrite Hstored, Hnext, Hint. reflexivity.
Qed.

(** X4. After a grade whose write succeeded, with a stored interval that is
    not negative and a zone with one offset, a queue rebuilt at any time
    earlier than one day after the grade holds no card of the graded node. *)
Theorem graded_card_not_due_again tz offset action now select_ok w card
  t cards_ok nodes_ok w' :
  (forall x b, tz x b = offset) ->
  nth_error (reviewQueue (view w)) (currentCardIndex (view w)) = Some card ->
  (forall old prev,
     select_single_node (node_id card) select_ok (db w) = Some old ->
     n_interval_days old = Some prev -> 0 <= prev) ->
  db w' = db (fst (handleReviewAction tz action now select_ok true w)) ->
  t < now + 86400000 ->
  Forall (fun e => node_id e <> node_id card)
         (reviewQueue (view (fetchReviewCards t cards_ok nodes_ok w'))).
Proof.
  intros Hzone Hcard Hstored Hdb Ht.
  apply Forall_forall. intros e He Heq.
  apply fetchReviewCards_entry in He
    as (c & n & _ & Hn & Hid & Hdue & _ & ->).
  cbn [node_id review_entry] in Heq.
  rewrite Hdb in Hn.
  assert (Hidn : n_id n = node_id card) by (rewrite Hid; exact Heq).
  pose proof (handleReviewAction_written tz action now select_ok w card n
                Hcard Hn Hidn) as Hnext.
  pose proof (nextIntervalFor_positive action
                (select_single_node (node_id card) select_ok (db w)) Hstored)
    as Hm.
  rewrite (nextDateFor_fixed tz offset now _ Hzone) in Hnext.
  rewrite Hnext in Hdue. unfold lte in Hdue. apply Z.leb_le in Hdue.
  unfold JSDate.msPerDay in Hdue. lia.
Qed.

Lemma fetchReviewCards_length nowISO cards_ok nodes_ok w :
  (List.length
     (reviewQueue (view (fetchReviewCards nowISO cards_ok nodes_ok w)))
   <= 50)%nat.
Proof.
  rewrite fetchReviewCards_queue. cbv zeta. rewrite length_map.
  eapply Nat.le_trans; [apply filter_length_le|].
  unfold fetched_cards, select_flashcards.
  destruct cards_ok; [|cbn; lia].
  rewrite length_firstn. apply Nat.le_min_l.
Qed.

Lemma dispatch_queue_length tz w ev :
  (List.length (reviewQueue (view w)) <= 50)%nat ->
  (List.length (reviewQueue (view (dispatch tz w ev))) <= 50)%nat.
Proof.
  intros Hw. unfold dispatch.
  destruct (enabled (view w) ev); [|exact Hw].
  assert (Heffect : forall nowISO cards_ok nodes_ok w0,
            (List.length (reviewQueue (view w0)) <= 50)%nat ->
            (List.length
               (reviewQueue (view (modeEffect nowISO cards_ok nodes_ok w0)))
             <= 50)%nat).
  { intros nowISO cards_ok nodes_ok w0 Hw0. unfold modeEffect.
    destruct (mode (view w0)).
    - exact Hw0.
    - apply fetchReviewCards_length.
    - now rewrite (proj2 (fetchAtlasCards_world cards_ok w0)). }
  destruct ev as [m nowISO cards_ok nodes_ok|nowISO cards_ok nodes_ok|
                 |action now select_ok update_ok].
  - unfold changeMode.
    destruct (ModeType_eqb m (mode (view w))); [exact Hw|].
    apply Heffect. exact Hw.
  - apply Heffect. exact Hw.
  - exact Hw.
  - destruct (handleReviewAction_queue tz action now select_ok update_ok w)
      as [_ [Hq|Hq]]; rewrite Hq; [exact Hw|cbn; lia].
Qed.

(** X5. Only the first 50 rows of the flashcards table are ever reviewed:
    the queue [fetchReviewCards] builds holds rows among those 50 only, and
    after any events from mount the queue has at most 50 entries. *)
Theorem queue_within_first_50 :
  (forall nowISO cards_ok nodes_ok w,
     incl (map card_of
             (reviewQueue (view (fetchReviewCards nowISO cards_ok nodes_ok w))))
          (firstn 50 (flashcards (db w)))) /\
  (forall tz es d,
     (List.length
        (reviewQueue (view (run tz es {| view := initial_ui; db := d |})))
      <= 50)%nat).
Proof.
  split.
  - intros nowISO cards_ok nodes_ok w c Hc.
    apply in_map_iff in Hc as [e [<- He]].
    apply fetchReviewCards_entry in He as (c & n & Hc & _ & _ & _ & _ & ->).
    rewrite card_of_review_entry.
    unfold fetched_cards, select_flashcards in Hc.
    destruct cards_ok; [exact Hc|contradiction].
  - intros tz es d.
    assert (H : forall w, (List.length (reviewQueue (view w)) <= 50)%nat ->
                (List.length (reviewQueue (view (run tz es w))) <= 50)%nat).
    { induction es as [|ev es IH]; intros w Hw; [exact Hw|].
      cbn [run fold_left]. apply IH. now apply dispatch_queue_length. }
    apply H. cbn. lia.
Qed.

(** An event handled to its end keeps the cursor inside the queue. *)
Lemma handled_cursor_ok tz w e :
  cursor_ok (view w) -> cursor_ok (view (handled tz w e)).
Proof.
  intros Hw.
  destruct e as [m nowISO cards_ok nodes_ok|nowISO cards_ok nodes_ok|
                |action now select_ok update_ok];
    try (apply (dispatch_cursor_ok tz); exact Hw).
  pose proof (dispatch_cursor_ok tz w
                (ClickGrade action now select_ok update_ok) Hw) as Hd.
  unfold dispatch in Hd. unfold handled.
  destruct (enabled (view w) (ClickGrade action now select_ok update_ok));
    [|exact Hw].
  destruct (currentCardOf (view w)) as [card|] eqn:Hcard.
  - destruct (Z_le_gt_dec
                (Z.abs (nextDateFor tz now
                          (nextIntervalFor action
                             (select_single_node (node_id card) select_ok
                                (db w)))))
                JSDate.maxTime) as [Hvalid|Hinvalid].
    + destruct (handleReviewAction_run_returns tz action now select_ok
                  update_ok w card Hcard Hvalid) as (req & -> & _).
      exact Hd.
    + apply Z.gt_lt in Hinvalid.
      rewrite (handleReviewAction_run_throws tz action now select_ok
                 update_ok w card Hcard Hinvalid).
      exact Hw.
  - unfold handleReviewAction_run. rewrite Hcard. exact Hw.
Qed.

(** X6. After any events from mount, each handled to its end before the
    next one, the grades that throw at the due date included, no call is
    pending and whenever the review card is rendered the cursor selects an
    entry of the queue, so the render's [reviewQueue[currentCardIndex]] is a
    card. *)
Theorem rendered_card_exists tz es d :
  let r := sequential tz es {| view := initial_ui; db := d |} in
  pending r = [] /\
  (cardShown (view (current r)) = true ->
   exists card, currentCardOf (view (current r)) = Some card).
Proof.
  intros r. unfold r. rewrite sequential_handled.
  cbn [pending current quiescent]. split; [reflexivity|].
  set (w := fold_left (handled tz) es {| view := initial_ui; db := d |}).
  assert (Hok : cursor_ok (view w)).
  { unfold w.
    assert (H : forall w0, cursor_ok (view w0) ->
                  cursor_ok (view (fold_left (handled tz) es w0))).
    { induction es as [|e es IH]; intros w0 Hw0; [exact Hw0|].
      cbn [fold_left]. apply IH. now apply handled_cursor_ok. }
    apply H. left. reflexivity. }
  clearbody w. intros Hshown. unfold currentCardOf.
  destruct Hok as [Hempty|Hlt].
  - unfold cardShown in Hshown. rewrite Hempty in Hshown.
    destruct (mode (view w)); discriminate.
  - destruct (nth_error (reviewQueue (view w)) (currentCardIndex (view w)))
      as [card|] eqn:E.
    + now exists card.
    + apply nth_error_None in E. lia.
Qed.

Lemma asciiCategories_node d n :
  asciiCategories d = true -> In n (knowledge_nodes d) ->
  isAscii (js_or falsyString (n_category n) "note"%string) = true.
Proof.
  unfold asciiCategories. intros Hall Hin.
  rewrite forallb_forall in Hall. specialize (Hall n Hin).
  unfold js_or. destruct (n_category n) as [c|]; [|reflexivity].
  destruct (falsyString c); [reflexivity|exact Hall].
Qed.

(** X7. When the categories stored in the table are made of ASCII
    characters, every entry of the queue [fetchReviewCards] builds carries
    the mastery flag false and the category, in lower case, of a due node of
    the table with the card's [node_id]; the category is "note" when that
    node's category is null or empty. *)
Theorem review_entries_carry_node_category nowISO cards_ok nodes_ok w :
  asciiCategories (db w) = true ->
  Forall (fun e =>
            exists n,
              In n (knowledge_nodes (db w)) /\
              n_id n = node_id e /\
              lte (n_next_review_at n) nowISO = true /\
              isAscii (js_or falsyString (n_category n) "note"%string)
              = true /\
              card_node e
              = Some {| is_mastered := false;
                        category :=
                          toLowerCase
                            (js_or falsyString (n_category n) "note"%string) |})
         (reviewQueue (view (fetchReviewCards nowISO cards_ok nodes_ok w))).
Proof.
  intros Hascii. apply Forall_forall. intros e He.
  apply fetchReviewCards_entry in He
    as (c & n & _ & Hn & Hid & Hdue & Hfind & ->).
  exists n. unfold review_entry. cbn [node_id card_node]. rewrite Hfind.
  split; [exact Hn|]. split; [exact Hid|]. split; [exact Hdue|].
  split; [exact (asciiCategories_node _ _ Hascii Hn)|reflexivity].
Qed.

(** ** A whole review pass *)

(** One reveal and grade on a state showing an unrevealed card. *)
Lemma reveal_and_grade_step tz g w card :
  mode (view w) = review ->
  isFlipped (view w) = false ->
  nth_error (reviewQueue (view w)) (currentCardIndex (view w)) = Some card ->
  let w' := run tz (reveal_and_grade g) w in
  let i := currentCardIndex (view w) in
  let q := reviewQueue (view w) in
  map u_node_id (run_log tz (reveal_and_grade g) w) = [node_id card] /\
  mode (view w') = review /\
  isFlipped (view w') = false /\
  ((S i < List.length q)%nat ->
   reviewQueue (view w') = q /\ currentCardIndex (view w') = S i) /\
  ((S i = List.length q)%nat -> reviewQueue (view w') = []).
Proof.
  intros Hmode Hflip Hcard. cbv zeta.
  assert (Hshown : cardShown (view w) = true).
  { unfold cardShown. rewrite Hmode.
    destruct (reviewQueue (view w)); [|reflexivity].
    destruct (currentCardIndex (view w)); discriminate. }
  set (w1 := flipCard w).
  assert (Hw1 : dispatch tz w ClickCard = w1).
  { unfold dispatch, enabled. now rewrite Hshown. }
  assert (Hq1 : reviewQueue (view w1) = reviewQueue (view w)) by reflexivity.
  assert (Hi1 : currentCardIndex (view w1) = currentCardIndex (view w))
    by reflexivity.
  assert (Hm1 : mode (view w1) = mode (view w)) by reflexivity.
  assert (Hf1 : isFlipped (view w1) = true).
  { unfold w1, flipCard. cbn [view with_view setIsFlipped isFlipped].
    now rewrite Hflip. }
  assert (Hc1 : nth_error (reviewQueue (view w1)) (currentCardIndex (view w1))
                = Some card) by (rewrite Hq1, Hi1; exact Hcard).
  assert (Hen : enabled (view w1)
                  (ClickGrade (g_action g) (g_now g) (g_select_ok g)
                     (g_update_ok g)) = true).
  { unfold enabled, cardShown. rewrite Hm1, Hmode, Hq1, Hf1.
    destruct (reviewQueue (view w)); [|reflexivity].
    destruct (currentCardIndex (view w)); discriminate. }
  destruct (handleReviewAction_request tz (g_action g) (g_now g)
              (g_select_ok g) (g_update_ok g) w1 card Hc1)
    as (req & Hsent & _ & Hrid & _ & _).
  destruct (handleReviewAction_view tz (g_action g) (g_now g) (g_select_ok g)
              (g_update_ok g) w1 card Hc1) as (Hm' & Hf' & Hnext & Hlast).
  unfold reveal_and_grade.
  cbn [run fold_left run_log]. rewrite Hw1.
  unfold sent_by at 1. unfold enabled at 1. rewrite Hshown.
  unfold sent_by. rewrite Hen, Hsent.
  unfold dispatch. rewrite Hen.
  rewrite Hq1, Hi1 in Hnext, Hlast. rewrite Hm1 in Hm'.
  split; [cbn [app map]; now rewrite Hrid|].
  split; [now rewrite Hm'|]. split; [exact Hf'|]. split; assumption.
Qed.

Lemma run_app tz es1 es2 w :
  run tz (es1 ++ es2) w = run tz es2 (run tz es1 w).
Proof. unfold run. apply fold_left_app. Qed.

Lemma run_log_app tz es1 es2 w :
  run_log tz (es1 ++ es2) w
  = run_log tz es1 w ++ run_log tz es2 (run tz es1 w).
Proof.
  revert w. induction es1 as [|e es1 IH]; intros w; [reflexivity|].
  cbn [app run_log]. rewrite IH, <- app_assoc. reflexivity.
Qed.

Lemma review_pass_from tz gs :
  forall w,
  mode (view w) = review ->
  isFlipped (view w) = false ->
  (currentCardIndex (view w) < List.length (reviewQueue (view w)))%nat ->
  List.length gs
  = (List.length (reviewQueue (view w)) - currentCardIndex (view w))%nat ->
  reviewQueue (view (run tz (review_pass gs) w)) = [] /\
  map u_node_id (run_log tz (review_pass gs) w)
  = map node_id (skipn (currentCardIndex (view w)) (reviewQueue (view w))).
Proof.
  induction gs as [|g gs IH]; intros w Hmode Hflip Hidx Hlen.
  - cbn [List.length] in Hlen. lia.
  - destruct (nth_error (reviewQueue (view w)) (currentCardIndex (view w)))
      as [card|] eqn:Hcard; [|apply nth_error_None in Hcard; lia].
    destruct (reveal_and_grade_step tz g w card Hmode Hflip Hcard)
      as (Hlog & Hm' & Hf' & Hnext & Hlast).
    assert (Hskip : skipn (currentCardIndex (view w)) (reviewQueue (view w))
                    = card :: skipn (S (currentCardIndex (view w)))
                                    (reviewQueue (view w))).
    { clear - Hcard.
      revert Hcard. generalize (currentCardIndex (view w)) as i.
      induction (reviewQueue (view w)) as [|x q IHq]; intros [|i] Hc;
        try discriminate.
      - injection Hc as ->. reflexivity.
      - cbn [nth_error] in Hc. exact (IHq i Hc). }
    unfold review_pass. cbn [flat_map]. fold (review_pass gs).
    rewrite run_app, run_log_app, map_app, Hlog, Hskip.
    cbn [List.length] in Hlen.
    destruct (Nat.eq_dec (S (currentCardIndex (view w)))
                         (List.length (reviewQueue (view w)))) as [Heq|Hne].
    + assert (Hgs : gs = []) by (destruct gs; [reflexivity|cbn in Hlen; lia]).
      subst gs. cbn [review_pass flat_map run fold_left run_log map app].
      split; [exact (Hlast Heq)|].
      rewrite skipn_all2 by lia. reflexivity.
    + destruct (Hnext ltac:(lia)) as [Hq' Hi'].
      destruct (IH (run tz (reveal_and_grade g) w) Hm' Hf') as [Hend Hsent].
      * rewrite Hq', Hi'. lia.
      * rewrite Hq', Hi'. lia.
      * split; [exact Hend|].
        rewrite Hsent, Hq', Hi'. reflexivity.
Qed.

(** An event whose handler does not throw has the effect of [dispatch]. *)
Lemma handled_no_throw tz w e :
  no_throw (handled_trace tz w e) = true ->
  handled tz w e = dispatch tz w e /\
  handled_trace tz w e
  = map Issued match sent_by tz w e with Some u => [u] | None => [] end.
Proof.
  destruct e as [m nowISO cards_ok nodes_ok|nowISO cards_ok nodes_ok|
                |action now select_ok update_ok].
  - intros _. split; [reflexivity|].
    unfold sent_by. destruct (enabled _ _); reflexivity.
  - intros _. split; [reflexivity|].
    unfold sent_by. destruct (enabled _ _); reflexivity.
  - intros _. split; [reflexivity|].
    unfold sent_by. destruct (enabled _ _); reflexivity.
  - unfold handled, handled_trace, dispatch, sent_by.
    destruct (enabled (view w) (ClickGrade action now select_ok update_ok));
      [|intros _; split; reflexivity].
    destruct (currentCardOf (view w)) as [card|] eqn:Hcard.
    + destruct (Z_le_gt_dec
                  (Z.abs (nextDateFor tz now
                            (nextIntervalFor action
                               (select_single_node (node_id card) select_ok
                                  (db w)))))
                  JSDate.maxTime) as [Hvalid|Hinvalid].
      * destruct (handleReviewAction_run_returns tz action now select_ok
                    update_ok w card Hcard Hvalid) as (req & -> & -> & _).
        intros _. split; reflexivity.
      * apply Z.gt_lt in Hinvalid.
        rewrite (handleReviewAction_run_throws tz action now select_ok
                   update_ok w card Hcard Hinvalid).
        cbn. discriminate.
    + intros _. unfold handleReviewAction_run, handleReviewAction.
      unfold currentCardOf in Hcard. unfold currentCardOf. rewrite Hcard.
      split; reflexivity.
Qed.

Lemma no_throw_app t1 t2 :
  no_throw (t1 ++ t2) = no_throw t1 && no_throw t2.
Proof. apply forallb_app. Qed.

(** Events handled one after the other, none of which throws, give the
    states and the updates of [run]. *)
Lemma sequential_no_throw tz es :
  forall w,
  no_throw (sequential_trace tz es w) = true ->
  sequential tz es w = quiescent (run tz es w) /\
  sequential_trace tz es w = map Issued (run_log tz es w).
Proof.
  induction es as [|e es IH]; intros w Hno; [split; reflexivity|].
  destruct (sequential_cons tz e es w) as [Hseq Htrace].
  rewrite Htrace, no_throw_app in Hno.
  apply andb_true_iff in Hno as [Hno1 Hno2].
  destruct (handled_no_throw tz w e Hno1) as [Hh Ht].
  rewrite Hseq, Htrace, Ht, Hh. rewrite Hh in Hno2.
  destruct (IH _ Hno2) as [-> ->].
  split; [reflexivity|].
  cbn [run_log]. rewrite map_app. reflexivity.
Qed.

Lemma issued_ids_map l : issued_ids (map Issued l) = map u_node_id l.
Proof.
  induction l as [|u l IH]; [reflexivity|].
  cbn [map issued_ids flat_map app]. f_equal. exact IH.
Qed.

(** X8. From an unrevealed first card in review mode, revealing and grading
    once per card of the queue, each event handled to its end before the
    next one and no grade throwing at its due date, ends the session with
    the queue emptied and no call pending, and issues exactly one update per
    card, to the cards' nodes in queue order, whatever the outcomes chosen
    and the answers of the backend. *)
Theorem review_pass_grades_each_card_once tz gs w :
  mode (view w) = review ->
  isFlipped (view w) = false ->
  currentCardIndex (view w) = 0%nat ->
  reviewQueue (view w) <> [] ->
  List.length gs = List.length (reviewQueue (view w)) ->
  no_throw (sequential_trace tz (review_pass gs) w) = true ->
  let r := sequential tz (review_pass gs) w in
  pending r = [] /\
  session_of (view (current r)) = Terminal /\
  issued_ids (sequential_trace tz (review_pass gs) w)
  = map node_id (reviewQueue (view w)).
Proof.
  intros Hmode Hflip Hidx Hq Hlen Hno r.
  destruct (sequential_no_throw tz (review_pass gs) w Hno) as [Hseq Htrace].
  unfold r. rewrite Hseq, Htrace, issued_ids_map.
  cbn [pending current quiescent]. split; [reflexivity|].
  destruct (review_pass_from tz gs w Hmode Hflip) as [Hend Hsent].
  - rewrite Hidx. destruct (reviewQueue (view w)); [contradiction|cbn; lia].
  - rewrite Hidx, Nat.sub_0_r. exact Hlen.
  - split.
    + unfold session_of. now rewrite Hend.
    + rewrite Hsent, Hidx. reflexivity.
Qed.

(** ** A due date outside the range of Date *)

(** X17. When the due date of a grade falls outside the range of Date,
    [toISOString] throws after the status line was written: no update is
    issued, the card stays revealed under the same cursor and the tables are
    left as they were. *)
Theorem invalid_due_date_stops_the_grade tz action now select_ok update_ok w
  i card :
  mode (view w) = review ->
  session_of (view w) = Showing i true ->
  nth_error (reviewQueue (view w)) i = Some card ->
  JSDate.maxTime
  < Z.abs (nextDateFor tz now
             (nextIntervalFor action
                (select_single_node (node_id card) select_ok (db w)))) ->
  let r := sequential tz [ClickGrade action now select_ok update_ok] w in
  let m := nextIntervalFor action
             (select_single_node (node_id card) select_ok (db w)) in
  pending r = [] /\
  sequential_trace tz [ClickGrade action now select_ok update_ok] w
  = [Thrown m] /\
  current r
  = with_view w
      (setStatusMsg match action with
                    | remember => MsgRemembered m
                    | forget => MsgForgot
                    end (view w)) /\
  session_of (view (current r)) = Showing i true /\
  db (current r) = db w.
Proof.
  intros Hmode Hsess Hcard Hinvalid r m.
  assert (Hsess' := Hsess). unfold session_of in Hsess'.
  destruct (reviewQueue (view w)) as [|c q] eqn:Hq; [discriminate|].
  injection Hsess' as Hidx Hflip.
  assert (Hen : enabled (view w) (ClickGrade action now select_ok update_ok)
                = true).
  { unfold enabled, cardShown. now rewrite Hmode, Hq, Hflip. }
  assert (Hcur : currentCardOf (view w) = Some card).
  { unfold currentCardOf. now rewrite Hq, Hidx. }
  pose proof (handleReviewAction_run_throws tz action now select_ok update_ok
                w card Hcur Hinvalid) as Hrun.
  destruct (sequential_cons tz (ClickGrade action now select_ok update_ok)
              [] w) as [_ Htrace].
  unfold r. rewrite sequential_handled, Htrace. cbn [fold_left].
  unfold handled, handled_trace. rewrite Hen, Hrun.
  cbn [outcome_world outcome_trace pending current quiescent].
  split; [reflexivity|]. split; [reflexivity|].
  split; [destruct action; reflexivity|].
  split; [|reflexivity].
  unfold session_of. cbn [view with_view setStatusMsg reviewQueue
                          currentCardIndex isFlipped].
  now rewrite Hq, Hidx, Hflip.
Qed.

(** ** Two grades from the same render *)

Lemma afterSelect_valid tz action card now select_ok w :
  Z.abs (nextDateFor tz now
           (nextIntervalFor action
              (select_single_node (node_id card) select_ok (db w))))
  <= JSDate.maxTime ->
  exists w1 req,
    afterSelect tz action card now select_ok w
    = (w1, u_interval_days req, Some req) /\
    u_node_id req = node_id card /\
    db w1 = db w /\
    mode (view w1) = mode (view w) /\
    reviewQueue (view w1) = reviewQueue (view w) /\
    currentCardIndex (view w1) = currentCardIndex (view w) /\
    isFlipped (view w1) = isFlipped (view w).
Proof.
  intros Hvalid. unfold afterSelect. rewrite (TimeClip_valid _ Hvalid).
  clear Hvalid.
  set (m := nextIntervalFor action
              (select_single_node (node_id card) select_ok (db w))).
  generalize (nextDateFor tz now m). intros t.
  exists (with_view w
            match action with
            | remember => setStatusMsg (MsgRemembered m) (view w)
            | forget => setStatusMsg MsgForgot (view w)
            end),
         {| u_node_id := node_id card; u_next_review_at := t;
            u_interval_days := m |}.
  split; [reflexivity|].
  destruct action; repeat split.
Qed.

Lemma afterUpdate_view closure req update_ok w :
  (S (currentCardIndex closure) < List.length (reviewQueue closure))%nat ->
  mode (view (afterUpdate closure req update_ok w)) = mode (view w) /\
  reviewQueue (view (afterUpdate closure req update_ok w))
  = reviewQueue (view w) /\
  currentCardIndex (view (afterUpdate closure req update_ok w))
  = S (currentCardIndex (view w)) /\
  isFlipped (view (afterUpdate closure req update_ok w)) = false.
Proof.
  intros Hlt. unfold afterUpdate.
  assert (Htest : (Z.of_nat (currentCardIndex closure)
                   <? Z.of_nat (List.length (reviewQueue closure)) - 1)
                  = true)
    by (apply Z.ltb_lt; lia).
  rewrite Htest. repeat split.
Qed.

Lemma advance_press_grade tz r action :
  advance tz r (PressGrade action)
  = if cardShown (view (current r)) && isFlipped (view (current r)) then
      match currentCardOf (view (current r)) with
      | Some card =>
          {| current := current r;
             pending := pending r
                        ++ [AwaitSelect (view (current r)) action card] |}
      | None => r
      end
    else r.
Proof. reflexivity. Qed.

Lemma advance_select_answer tz r k closure action card select_ok now :
  nth_error (pending r) k = Some (AwaitSelect closure action card) ->
  advance tz r (SelectAnswer k select_ok now)
  = {| current :=
         fst (fst (afterSelect tz action card now select_ok (current r)));
       pending :=
         match snd (afterSelect tz action card now select_ok (current r)) with
         | Some req => replace_nth k (AwaitUpdate closure req) (pending r)
         | None => remove_nth k (pending r)
         end |} /\
  trace_of tz r (SelectAnswer k select_ok now)
  = match snd (afterSelect tz action card now select_ok (current r)) with
    | Some req => [Issued req]
    | None =>
        [Thrown (snd (fst (afterSelect tz action card now select_ok
                             (current r))))]
    end.
Proof.
  intros Hk. unfold advance, trace_of. rewrite Hk.
  destruct (afterSelect tz action card now select_ok (current r))
    as [[w1 m] [req|]]; split; reflexivity.
Qed.

Lemma advance_update_answer tz r k closure req update_ok :
  nth_error (pending r) k = Some (AwaitUpdate closure req) ->
  advance tz r (UpdateAnswer k update_ok)
  = {| current := afterUpdate closure req update_ok (current r);
       pending := remove_nth k (pending r) |}.
Proof. intros Hk. unfold advance. rewrite Hk. reflexivity. Qed.

(** X18. Two presses on the grade buttons of the same revealed card, the
    second before the first call has been answered, issue two updates for
    the card's node and move the cursor two cards ahead; from the last but
    one card the cursor ends past the queue, which is still shown. *)
Theorem double_click_skips_a_card tz a1 a2 now1 now2 so1 so2 uo1 uo2 w i card :
  mode (view w) = review ->
  session_of (view w) = Showing i true ->
  nth_error (reviewQueue (view w)) i = Some card ->
  (S i < List.length (reviewQueue (view w)))%nat ->
  Z.abs (nextDateFor tz now1
           (nextIntervalFor a1
              (select_single_node (node_id card) so1 (db w))))
  <= JSDate.maxTime ->
  Z.abs (nextDateFor tz now2
           (nextIntervalFor a2
              (select_single_node (node_id card) so2 (db w))))
  <= JSDate.maxTime ->
  let ls := [PressGrade a1; PressGrade a2;
             SelectAnswer 0 so1 now1; SelectAnswer 1 so2 now2;
             UpdateAnswer 0 uo1; UpdateAnswer 0 uo2] in
  let r := advance_all tz ls (quiescent w) in
  pending r = [] /\
  issued_ids (trace_all tz ls (quiescent w)) = [node_id card; node_id card] /\
  mode (view (current r)) = review /\
  reviewQueue (view (current r)) = reviewQueue (view w) /\
  currentCardIndex (view (current r)) = S (S i) /\
  (S (S i) = List.length (reviewQueue (view w)) ->
   cardShown (view (current r)) = true /\
   currentCardOf (view (current r)) = None).
Proof.
  intros Hmode Hsess Hcard Hlt Hv1 Hv2 ls r.
  assert (Hsess' := Hsess). unfold session_of in Hsess'.
  destruct (reviewQueue (view w)) as [|c q] eqn:Hq; [discriminate|].
  injection Hsess' as Hidx Hflip. rewrite <- Hq in *.
  assert (Hshown : cardShown (view w) && isFlipped (view w) = true).
  { unfold cardShown. now rewrite Hmode, Hq, Hflip. }
  assert (Hcur : currentCardOf (view w) = Some card).
  { unfold currentCardOf. now rewrite Hidx. }
  (* the two presses *)
  assert (H1 : advance tz (quiescent w) (PressGrade a1)
               = {| current := w;
                    pending := [AwaitSelect (view w) a1 card] |}).
  { rewrite advance_press_grade. cbn [current quiescent pending].
    rewrite Hshown, Hcur. reflexivity. }
  assert (H2 : advance tz {| current := w;
                             pending := [AwaitSelect (view w) a1 card] |}
                 (PressGrade a2)
               = {| current := w;
                    pending := [AwaitSelect (view w) a1 card;
                                AwaitSelect (view w) a2 card] |}).
  { rewrite advance_press_grade. cbn [current pending].
    rewrite Hshown, Hcur. reflexivity. }
  (* the two selects *)
  destruct (afterSelect_valid tz a1 card now1 so1 w Hv1)
    as (w1 & req1 & Hs1 & Hid1 & Hdb1 & Hm1 & Hq1 & Hi1 & Hf1).
  destruct (advance_select_answer tz
              {| current := w;
                 pending := [AwaitSelect (view w) a1 card;
                             AwaitSelect (view w) a2 card] |}
              0 (view w) a1 card so1 now1 eq_refl) as [H3 T3].
  cbn [current pending] in H3, T3.
  rewrite Hs1 in H3, T3. cbn [fst snd replace_nth firstn skipn app] in H3, T3.
  rewrite <- Hdb1 in Hv2.
  destruct (afterSelect_valid tz a2 card now2 so2 w1 Hv2)
    as (w2 & req2 & Hs2 & Hid2 & Hdb2 & Hm2 & Hq2 & Hi2 & Hf2).
  destruct (advance_select_answer tz
              {| current := w1;
                 pending := [AwaitUpdate (view w) req1;
                             AwaitSelect (view w) a2 card] |}
              1 (view w) a2 card so2 now2 eq_refl) as [H4 T4].
  cbn [current pending] in H4, T4.
  rewrite Hs2 in H4, T4. cbn [fst snd replace_nth firstn skipn app] in H4, T4.
  (* the two updates *)
  pose proof (advance_update_answer tz
                {| current := w2;
                   pending := [AwaitUpdate (view w) req1;
                               AwaitUpdate (view w) req2] |}
                0 (view w) req1 uo1 eq_refl) as H5.
  cbn [current pending remove_nth firstn skipn app] in H5.
  pose proof (advance_update_answer tz
                {| current := afterUpdate (view w) req1 uo1 w2;
                   pending := [AwaitUpdate (view w) req2] |}
                0 (view w) req2 uo2 eq_refl) as H6.
  cbn [current pending remove_nth firstn skipn app] in H6.
  assert (Hclosure : (S (currentCardIndex (view w))
                      < List.length (reviewQueue (view w)))%nat)
    by (rewrite Hidx; exact Hlt).
  destruct (afterUpdate_view (view w) req1 uo1 w2 Hclosure)
    as (Hm3 & Hq3 & Hi3 & _).
  destruct (afterUpdate_view (view w) req2 uo2
              (afterUpdate (view w) req1 uo1 w2) Hclosure)
    as (Hm4 & Hq4 & Hi4 & _).
  assert (Hr : r = {| current :=
                        afterUpdate (view w) req2 uo2
                          (afterUpdate (view w) req1 uo1 w2);
                      pending := [] |}).
  { unfold r, ls, advance_all. cbn [fold_left].
    rewrite H1, H2, H3, H4, H5, H6. reflexivity. }
  assert (Ht : trace_all tz ls (quiescent w) = [Issued req1; Issued req2]).
  { unfold ls. cbn [trace_all].
    rewrite H1, H2, T3, H3, T4. reflexivity. }
  clearbody r. subst r.
  rewrite Ht. cbn [pending current issued_ids flat_map app].
  rewrite Hid1, Hid2.
  set (w4 := afterUpdate (view w) req2 uo2
               (afterUpdate (view w) req1 uo1 w2)) in *.
  assert (Hmode4 : mode (view w4) = review) by congruence.
  assert (Hq4' : reviewQueue (view w4) = reviewQueue (view w)) by congruence.
  assert (Hi4' : currentCardIndex (view w4) = S (S i)) by congruence.
  split; [reflexivity|]. split; [reflexivity|]. split; [exact Hmode4|].
  split; [exact Hq4'|]. split; [exact Hi4'|].
  intros Hend. split.
  - unfold cardShown. now rewrite Hmode4, Hq4', Hq.
  - unfold currentCardOf. rewrite Hq4', Hi4'.
    apply nth_error_None. lia.
Qed.

(** ** The atlas filter and counters *)

Lemma includes_empty s : includes s "" = true.
Proof. destruct s; reflexivity. Qed.

(** X19. With the search box empty and the category "all" selected the atlas
    lists every loaded card, in the loaded order. *)
Theorem atlas_unfiltered_lists_all a :
  searchTerm a = ""%string ->
  filterCategory a = "all"%string ->
  filteredAtlasCards a = atlasCards a.
Proof.
  intros Hterm Hcat. unfold filteredAtlasCards. rewrite Hterm, Hcat.
  induction (atlasCards a) as [|c l IH]; [reflexivity|].
  cbn [filter].
  assert (Hs : matchesSearch "" c = true).
  { unfold matchesSearch. apply includes_empty. }
  rewrite Hs. cbn [andb matchesCategory String.eqb orb]. now rewrite IH.
Qed.

Lemma filter_length_cons {A : Type} (p : A -> bool) (x : A) (l : list A) :
  List.length (filter p (x :: l))
  = ((if p x then 1 else 0) + List.length (filter p l))%nat.
Proof. cbn [filter]. destruct (p x); reflexivity. Qed.

Lemma one_bucket card :
  ((if has_category "code" card then 1 else 0)
   + (if has_category "english" card then 1 else 0)
   + (if has_category "note" card then 1 else 0)
   + (if uncategorised card then 1 else 0))%nat = 1%nat.
Proof.
  unfold uncategorised, has_category.
  destruct (card_node card) as [info|]; [|reflexivity].
  destruct (String.eqb (category info) "code") eqn:Ec.
  - apply String.eqb_eq in Ec. rewrite Ec. reflexivity.
  - destruct (String.eqb (category info) "english") eqn:Ee.
    + apply String.eqb_eq in Ee. rewrite Ee. reflexivity.
    + destruct (String.eqb (category info) "note"); reflexivity.
Qed.

(** X11. The three category counters count disjoint sets of cards: together
    with the cards whose category is none of "code", "english" and "note"
    they add up to the total. *)
Theorem stats_partition a :
  (st_code (stats a) + st_english (stats a) + st_note (stats a)
   + List.length (filter uncategorised (atlasCards a)))%nat
  = st_total (stats a).
Proof.
  unfold stats. cbn [st_code st_english st_note st_total].
  induction (atlasCards a) as [|c l IH]; [reflexivity|].
  rewrite !filter_length_cons. cbn [List.length].
  pose proof (one_bucket c). lia.
Qed.

(** X12. A card whose category is none of the three known ones is drawn
    with the note style, yet the "note" filter does not list it and the note
    counter does not count it. *)
Theorem note_style_without_note_filter card info :
  card_node card = Some info ->
  toLowerCase (category info) <> "code"%string ->
  toLowerCase (category info) <> "english"%string ->
  category info <> "note"%string ->
  label (getCategoryColor
           (js_or falsyString (Some (category info)) "note"%string))
  = LabelNote /\
  matchesCategory "note" card = false /\
  has_category "note" card = false.
Proof.
  intros Hnode Hc He Hn.
  assert (Hnote : String.eqb (category info) "note" = false).
  { destruct (String.eqb (category info) "note") eqn:E; [|reflexivity].
    apply String.eqb_eq in E. contradiction. }
  split; [|unfold matchesCategory, has_category; rewrite Hnode, Hnote;
           split; reflexivity].
  unfold js_or. destruct (falsyString (category info)); [reflexivity|].
  unfold getCategoryColor.
  destruct (String.eqb (toLowerCase (category info)) "code") eqn:E1.
  { apply String.eqb_eq in E1. contradiction. }
  destruct (String.eqb (toLowerCase (category info)) "english") eqn:E2.
  { apply String.eqb_eq in E2. contradiction. }
  reflexivity.
Qed.

(** ** Loading the atlas *)

Lemma insert_desc_perm c l : Permutation (insert_desc c l) (c :: l).
Proof.
  induction l as [|x l IH]; [reflexivity|].
  cbn [insert_desc]. destruct (c_id x <=? c_id c); [reflexivity|].
  rewrite IH. apply perm_swap.
Qed.

Lemma order_id_desc_perm l : Permutation (order_id_desc l) l.
Proof.
  induction l as [|c l IH]; [reflexivity|].
  cbn [order_id_desc fold_right]. fold (order_id_desc l).
  rewrite insert_desc_perm. now constructor.
Qed.

Lemma insert_desc_sorted c l :
  StronglySorted newer_first l -> StronglySorted newer_first (insert_desc c l).
Proof.
  induction l as [|x l IH]; intros Hs.
  - repeat constructor.
  - cbn [insert_desc]. inversion Hs as [|? ? Hl Hx]; subst.
    destruct (c_id x <=? c_id c) eqn:E.
    + apply Z.leb_le in E. constructor; [exact Hs|].
      constructor; [exact E|].
      rewrite Forall_forall in *. intros y Hy. specialize (Hx y Hy).
      unfold newer_first in *. lia.
    + apply Z.leb_gt in E. constructor; [exact (IH Hl)|].
      rewrite Forall_forall in *. intros y Hy.
      apply (Permutation_in _ (insert_desc_perm c l)) in Hy.
      destruct Hy as [<-|Hy]; [unfold newer_first; lia|exact (Hx y Hy)].
Qed.

Lemma order_id_desc_sorted l : StronglySorted newer_first (order_id_desc l).
Proof.
  induction l as [|c l IH]; [constructor|].
  cbn [order_id_desc fold_right]. now apply insert_desc_sorted.
Qed.

Lemma sorted_firstn_skipn n l :
  StronglySorted newer_first l ->
  StronglySorted newer_first (firstn n l) /\
  forall x y, In x (firstn n l) -> In y (skipn n l) -> c_id y <= c_id x.
Proof.
  revert l. induction n as [|n IH]; intros l Hs.
  - split; [constructor|intros x y []].
  - destruct l as [|c l]; [split; [constructor|intros x y []]|].
    inversion Hs as [|? ? Hl Hc]; subst.
    destruct (IH l Hl) as [Hfirst Hrest]. cbn [firstn skipn]. split.
    + constructor; [exact Hfirst|].
      rewrite Forall_forall in *. intros y Hy.
      apply Hc. rewrite <- (firstn_skipn n l). apply in_or_app. now left.
    + intros x y [<-|Hx] Hy.
      * rewrite Forall_forall in Hc. apply (Hc y).
        rewrite <- (firstn_skipn n l). apply in_or_app. now right.
      * exact (Hrest x y Hx Hy).
Qed.

Lemma card_of_atlas_entry nodesData c : card_of (atlas_entry nodesData c) = c.
Proof. destruct c. reflexivity. Qed.

Lemma map_card_of_atlas_entry nodesData cards :
  map card_of (map (atlas_entry nodesData) cards) = cards.
Proof.
  rewrite map_map. induction cards as [|c cards IH]; [reflexivity|].
  cbn [map]. now rewrite card_of_atlas_entry, IH.
Qed.

(** The list [fetchAtlasCards] loads, in closed form. *)
Lemma fetchAtlasCardsList_cards nodes_ok a :
  atlasCards (atlas_of (fetchAtlasCardsList true nodes_ok a))
  = let cards := firstn 100 (order_id_desc (flashcards (db (world_of a)))) in
    map (atlas_entry (select_nodes_in (map c_node_id cards) nodes_ok
                        (db (world_of a)))) cards.
Proof. reflexivity. Qed.

(** [fetchAtlasCardsList] agrees with [fetchAtlasCards] on the cells that
    one models. *)
Lemma fetchAtlasCardsList_world cards_ok nodes_ok a :
  world_of (fetchAtlasCardsList cards_ok nodes_ok a)
  = fetchAtlasCards cards_ok (world_of a).
Proof.
  unfold fetchAtlasCardsList, fetchAtlasCards, select_flashcards_desc,
    select_flashcards.
  destruct cards_ok; [|reflexivity].
  cbn [world_of]. rewrite length_map, !length_firstn.
  now rewrite (Permutation_length (order_id_desc_perm _)).
Qed.

(** X13. Loading the atlas drops no card: the list holds one entry per
    fetched row, in the order fetched, and the status line reports that
    number.  An entry whose node the node request did not return is kept
    with the category "note" and the mastery flag false.  When the card
    request fails the list is left as it was. *)
Theorem atlas_keeps_every_fetched_card cards_ok nodes_ok a :
  let a' := fetchAtlasCardsList cards_ok nodes_ok a in
  (cards_ok = false ->
   atlasCards (atlas_of a') = atlasCards (atlas_of a)) /\
  (cards_ok = true ->
   map card_of (atlasCards (atlas_of a'))
   = firstn 100 (order_id_desc (flashcards (db (world_of a)))) /\
   statusMsg (view (world_of a'))
   = MsgAtlasLoaded (List.length (atlasCards (atlas_of a'))) /\
   Forall (fun e =>
             (nodes_ok = false \/
              forall n, In n (knowledge_nodes (db (world_of a))) ->
                        n_id n <> node_id e) ->
             card_node e
             = Some {| is_mastered := false; category := "note" |})
          (atlasCards (atlas_of a'))).
Proof.
  cbv zeta. split; intros ->; [reflexivity|].
  rewrite fetchAtlasCardsList_cards. cbv zeta.
  split; [apply map_card_of_atlas_entry|]. split; [reflexivity|].
  apply Forall_forall. intros e He Hnone.
  apply in_map_iff in He as [c [<- _]].
  unfold atlas_entry. cbn [card_node node_id] in *.
  match goal with
  | |- context [find_node ?nd ?i] =>
      assert (Hfind : find_node nd i = None)
  end.
  { unfold find_node, select_nodes_in.
    destruct nodes_ok; [|reflexivity].
    destruct Hnone as [Hoff|Hnone]; [discriminate|].
    match goal with
    | |- find ?p ?l = None => destruct (find p l) as [n|] eqn:Hn
    end; [|reflexivity].
    apply find_some in Hn as [Hin Hid]. apply filter_In in Hin as [Hin _].
    apply Z.eqb_eq in Hid. exfalso. exact (Hnone n Hin Hid). }
  rewrite Hfind. reflexivity.
Qed.

(** X14. The atlas shows the newest cards first: the identifiers of the
    loaded list never increase, the list has at most 100 entries, and every
    row of the table that is not listed has an identifier no greater than
    those listed. *)
Theorem atlas_newest_first nodes_ok a :
  let shown := atlasCards (atlas_of (fetchAtlasCardsList true nodes_ok a)) in
  StronglySorted (fun x y => id y <= id x) shown /\
  (List.length shown <= 100)%nat /\
  (forall c, In c (flashcards (db (world_of a))) ->
             ~ In c (map card_of shown) ->
             Forall (fun e => c_id c <= id e) shown).
Proof.
  cbv zeta. rewrite fetchAtlasCardsList_cards. cbv zeta.
  set (sorted := order_id_desc (flashcards (db (world_of a)))).
  destruct (sorted_firstn_skipn 100 sorted (order_id_desc_sorted _))
    as [Hfirst Hrest].
  set (nd := select_nodes_in _ _ _). clearbody nd.
  split; [|split].
  - clear Hrest. induction Hfirst as [|c l Hl IH Hc]; [constructor|].
    cbn [map]. constructor; [exact IH|].
    rewrite Forall_forall in *. intros e He.
    apply in_map_iff in He as [c' [<- Hc']]. exact (Hc c' Hc').
  - rewrite length_map, length_firstn. apply Nat.le_min_l.
  - intros c Hc Hnot. rewrite map_card_of_atlas_entry in Hnot.
    apply Forall_forall. intros e He.
    apply in_map_iff in He as [c' [<- Hc']]. cbn [id atlas_entry].
    apply (Hrest c' c Hc').
    apply (Permutation_in _ (Permutation_sym (order_id_desc_perm _))) in Hc.
    fold sorted in Hc. rewrite <- (firstn_skipn 100 sorted) in Hc.
    apply in_app_or in Hc as [Hc|Hc]; [contradiction|exact Hc].
Qed.

(** ** Deleting from the atlas *)

(** X15. A confirmed deletion removes the entries with that card identifier
    from the loaded list, lowers the star counter by one and writes the
    status line whatever the backend answers, and leaves the rest of the
    component state as it was; when all three requests fail the tables are
    left as they were, so loading the atlas again lists the same rows as
    loading it before the deletion, and counting again gives the number of
    nodes.  A deletion that is not confirmed changes nothing and sends
    nothing. *)
Theorem delete_updates_screen_whatever_backend cascade cardId nodeId a :
  (forall ok1 ok2 ok3,
     let a' := fst (handleDelete cascade true cardId nodeId ok1 ok2 ok3 a) in
     atlasCards (atlas_of a')
     = filter (fun c => negb (id c =? cardId)) (atlasCards (atlas_of a)) /\
     totalStars (atlas_of a') = totalStars (atlas_of a) - 1 /\
     searchTerm (atlas_of a') = searchTerm (atlas_of a) /\
     filterCategory (atlas_of a') = filterCategory (atlas_of a) /\
     view (world_of a') = setStatusMsg MsgDeleted (view (world_of a))) /\
  (let a' :=
     fst (handleDelete cascade true cardId nodeId false false false a) in
   db (world_of a') = db (world_of a) /\
   (forall nodes_ok,
      atlasCards (atlas_of (fetchAtlasCardsList true nodes_ok a'))
      = atlasCards (atlas_of (fetchAtlasCardsList true nodes_ok a))) /\
   totalStars (atlas_of (fetchTotalStars true a'))
   = Z.of_nat (List.length (knowledge_nodes (db (world_of a))))) /\
  (forall ok1 ok2 ok3,
     handleDelete cascade false cardId nodeId ok1 ok2 ok3 a = (a, [])).
Proof.
  split; [|split].
  - intros ok1 ok2 ok3. destruct ok1; repeat split.
  - cbv zeta. split; [reflexivity|]. split; [reflexivity|].
    unfold fetchTotalStars, handleDelete, count_nodes, js_or, falsyNumber.
    cbn [negb fst world_of db atlas_of setTotalStars totalStars delete_node
         delete_card].
    destruct (Z.of_nat (List.length (knowledge_nodes (db (world_of a)))) =? 0)
      eqn:E; [|reflexivity].
    apply Z.eqb_eq in E. now rewrite E.
  - reflexivity.
Qed.

Lemma filter_twice {A : Type} (p q : A -> bool) (l : list A) :
  filter p (filter q l) = filter (fun x => q x && p x) l.
Proof.
  induction l as [|x l IH]; [reflexivity|].
  cbn [filter]. destruct (q x); cbn [filter andb]; now rewrite IH.
Qed.

Lemma filter_none {A : Type} (p : A -> bool) (l : list A) :
  Forall (fun x => p x = false) (filter (fun x => negb (p x)) l).
Proof.
  apply Forall_forall. intros x Hx. apply filter_In in Hx as [_ Hx].
  now apply negb_true_iff.
Qed.

(** X16. What a confirmed deletion does to the tables.  One request is sent
    when the first deletion of the node succeeds, three when it fails.  No
    row of the node is left when the first or the last request succeeds; no
    row of the card is left when the fallback deletion of the card succeeds;
    on a backend that does not cascade, a deletion whose first request
    succeeds leaves the flashcards table as it was.  Rows of other nodes are
    never removed, nor are cards that have another identifier and belong to
    another node. *)
Theorem delete_effect_on_tables cascade cardId nodeId ok1 ok2 ok3 a :
  let r := handleDelete cascade true cardId nodeId ok1 ok2 ok3 a in
  let d := db (world_of a) in
  let d' := db (world_of (fst r)) in
  snd r = (if ok1 then [DeleteNode nodeId]
           else [DeleteNode nodeId; DeleteCard cardId; DeleteNode nodeId]) /\
  (ok1 || ok3 = true ->
   Forall (fun n => (n_id n =? nodeId) = false) (knowledge_nodes d')) /\
  (ok1 = false -> ok2 = true ->
   Forall (fun c => (c_id c =? cardId) = false) (flashcards d')) /\
  (ok1 = true -> cascade = false -> flashcards d' = flashcards d) /\
  filter (fun n => negb (n_id n =? nodeId)) (knowledge_nodes d')
  = filter (fun n => negb (n_id n =? nodeId)) (knowledge_nodes d) /\
  filter (fun c => negb (c_id c =? cardId) && negb (c_node_id c =? nodeId))
         (flashcards d')
  = filter (fun c => negb (c_id c =? cardId) && negb (c_node_id c =? nodeId))
           (flashcards d).
Proof.
  cbv zeta. unfold handleDelete. cbn [negb].
  destruct ok1; cbn [negb fst snd world_of db].
  - split; [reflexivity|]. split.
    { intros _. cbn [delete_node knowledge_nodes]. apply filter_none. }
    split; [discriminate|]. split.
    { intros _ ->. reflexivity. }
    cbn [delete_node knowledge_nodes flashcards]. split.
    + rewrite filter_twice. apply filter_ext. intros n.
      now rewrite andb_diag.
    + destruct cascade; [|reflexivity].
      rewrite filter_twice. apply filter_ext. intros c.
      destruct (c_node_id c =? nodeId); cbn [negb andb];
        [now rewrite andb_false_r|reflexivity].
  - split; [reflexivity|]. split.
    { cbn [orb]. intros ->. cbn [delete_node knowledge_nodes].
      apply filter_none. }
    split.
    { intros _ ->.
      destruct ok3; cbn [delete_node delete_card flashcards];
        [destruct cascade|]; try apply filter_none.
      apply Forall_forall. intros c Hc.
      apply filter_In in Hc as [Hc _].
      apply filter_In in Hc as [_ Hc]. now apply negb_true_iff. }
    split; [discriminate|].
    destruct ok2, ok3;
      cbn [delete_node delete_card knowledge_nodes flashcards];
      (split; [rewrite ?filter_twice; try reflexivity;
               apply filter_ext; intros n; now rewrite andb_diag|]);
      try reflexivity;
      destruct cascade; rewrite ?filter_twice; try reflexivity;
      apply filter_ext; intros c;
      destruct (c_id c =? cardId), (c_node_id c =? nodeId); reflexivity.
Qed.

(** ** Instances of the further properties on the sample data *)

Lemma sent_interval_grows_witness :
  (currentCardOf (view revealed1) = Some sampleEntry1 /\
   select_single_node (node_id sampleEntry1) true (db revealed1)
   = Some sampleNode2 /\
   n_interval_days sampleNode2 = Some 4 /\
   0 <= 4 /\
   5 * 4 < 2 ^ 53) /\
  exists m,
    outcome_interval
      (handleReviewAction_run fixedZone remember sampleNow true true
         revealed1) = Some m /\
    1 <= m /\
    (remember = remember -> 0 < 4 -> m = (5 * 4 + 1) / 2 /\ 4 < m <= 3 * 4) /\
    (forall req,
       outcome_request
         (handleReviewAction_run fixedZone remember sampleNow true true
            revealed1) = Some req ->
       u_interval_days req = m).
Proof.
  split; [repeat split; try reflexivity; lia|].
  apply (sent_interval_grows fixedZone remember sampleNow true true revealed1
           sampleEntry1 sampleNode2 4); try reflexivity; lia.
Defined.

Lemma negative_interval_not_clamped_witness :
  (currentCardOf (view negativeShown) = Some negativeEntry /\
   select_single_node (node_id negativeEntry) true (db negativeShown)
   = Some negativeNode /\
   n_interval_days negativeNode = Some (-2) /\
   -2 < 0 /\
   - 2 ^ 53 < 5 * -2 /\
   (forall t b, fixedZone t b = 28800000)) /\
  exists req,
    outcome_request
      (handleReviewAction_run fixedZone remember sampleNow true true
         negativeShown) = Some req /\
    u_interval_days req = -5 /\
    u_next_review_at req < sampleNow.
Proof.
  split; [repeat split; try reflexivity; lia|].
  destruct (negative_interval_not_clamped fixedZone sampleNow true true
              negativeShown negativeEntry negativeNode (-2) 28800000)
    as (_ & _ & Hvalid & _);
    [reflexivity|reflexivity|reflexivity|lia|lia|reflexivity|].
  destruct Hvalid as (req & Hreq & Hint & _ & Hbefore).
  { apply Z.leb_le. reflexivity. }
  exists req. split; [exact Hreq|]. split; [exact Hint|exact Hbefore].
Defined.

Lemma grade_touches_only_its_node_witness :
  nth_error (reviewQueue (view revealed1)) (currentCardIndex (view revealed1))
  = Some sampleEntry1 /\
  flashcards
    (db (fst (handleReviewAction fixedZone remember sampleNow true true
                revealed1)))
  = flashcards (db revealed1).
Proof.
  split; [reflexivity|].
  apply (grade_touches_only_its_node fixedZone remember sampleNow true true
           revealed1 sampleEntry1 eq_refl).
Defined.

Lemma graded_card_not_due_again_witness :
  ((forall x b, fixedZone x b = 28800000) /\
   nth_error (reviewQueue (view revealed0)) (currentCardIndex (view revealed0))
   = Some sampleEntry0 /\
   sampleNow < sampleNow + 86400000) /\
  Forall (fun e => node_id e <> node_id sampleEntry0)
         (reviewQueue
            (view (fetchReviewCards sampleNow true true
                     (fst (handleReviewAction fixedZone remember sampleNow true
                             true revealed0))))).
Proof.
  split; [repeat split; try reflexivity; lia|].
  apply (graded_card_not_due_again fixedZone 28800000 remember sampleNow true
           revealed0 sampleEntry0 sampleNow true true);
    try reflexivity; try lia.
  intros old prev Hold Hprev.
  assert (Hnode : select_single_node (node_id sampleEntry0) true (db revealed0)
                  = Some {| n_id := 1; n_category := Some "Code"%string;
                            n_is_mastered := false;
                            n_interval_days := Some 0;
                            n_next_review_at := Some 100 |}) by reflexivity.
  rewrite Hnode in Hold. injection Hold as <-. cbn in Hprev.
  injection Hprev as <-. lia.
Defined.

Lemma rendered_card_exists_witness :
  cardShown
    (view (current (sequential fixedZone
                      [ClickMode review 1000 true true; ClickCard;
                       ClickGrade remember sampleNow true true]
                      {| view := initial_ui; db := distantDb |}))) = true /\
  exists card,
    currentCardOf
      (view (current (sequential fixedZone
                        [ClickMode review 1000 true true; ClickCard;
                         ClickGrade remember sampleNow true true]
                        {| view := initial_ui; db := distantDb |})))
    = Some card.
Proof.
  split; [reflexivity|].
  apply (proj2 (rendered_card_exists fixedZone
                  [ClickMode review 1000 true true; ClickCard;
                   ClickGrade remember sampleNow true true] distantDb)).
  reflexivity.
Defined.

Lemma review_entries_carry_node_category_witness :
  asciiCategories (db mounted) = true /\
  map card_node
      (reviewQueue (view (fetchReviewCards 1000 true true mounted)))
  = [Some {| is_mastered := false; category := "code" |};
     Some {| is_mastered := false; category := "note" |};
     Some {| is_mastered := false; category := "note" |}] /\
  Forall (fun e =>
            exists n,
              In n (knowledge_nodes (db mounted)) /\
              n_id n = node_id e /\
              lte (n_next_review_at n) 1000 = true /\
              isAscii (js_or falsyString (n_category n) "note"%string)
              = true /\
              card_node e
              = Some {| is_mastered := false;
                        category :=
                          toLowerCase
                            (js_or falsyString (n_category n) "note"%string) |})
         (reviewQueue (view (fetchReviewCards 1000 true true mounted))).
Proof.
  split; [reflexivity|]. split; [reflexivity|].
  apply (review_entries_carry_node_category 1000 true true mounted eq_refl).
Defined.

Lemma review_pass_grades_each_card_once_witness :
  (mode (view entered) = review /\
   isFlipped (view entered) = false /\
   currentCardIndex (view entered) = 0%nat /\
   reviewQueue (view entered) <> [] /\
   List.length [sampleGrading; sampleGrading; sampleGrading]
   = List.length (reviewQueue (view entered)) /\
   no_throw (sequential_trace fixedZone
               (review_pass [sampleGrading; sampleGrading; sampleGrading])
               entered) = true) /\
  session_of
    (view (current (sequential fixedZone
                      (review_pass [sampleGrading; sampleGrading; sampleGrading])
                      entered))) = Terminal /\
  issued_ids
    (sequential_trace fixedZone
       (review_pass [sampleGrading; sampleGrading; sampleGrading]) entered)
  = map node_id (reviewQueue (view entered)).
Proof.
  assert (Hq : reviewQueue (view entered) <> []) by (cbv; discriminate).
  split; [repeat split; try reflexivity; exact Hq|].
  apply (review_pass_grades_each_card_once fixedZone
           [sampleGrading; sampleGrading; sampleGrading] entered);
    try reflexivity; exact Hq.
Defined.

Lemma invalid_due_date_stops_the_grade_witness :
  (mode (view distantShown) = review /\
   session_of (view distantShown) = Showing 0 true /\
   nth_error (reviewQueue (view distantShown)) 0 = Some negativeEntry /\
   JSDate.maxTime
   < Z.abs (nextDateFor fixedZone sampleNow
              (nextIntervalFor remember
                 (select_single_node (node_id negativeEntry) true
                    (db distantShown))))) /\
  sequential_trace fixedZone [ClickGrade remember sampleNow true true]
    distantShown = [Thrown 100000000] /\
  session_of
    (view (current (sequential fixedZone
                      [ClickGrade remember sampleNow true true]
                      distantShown))) = Showing 0 true /\
  statusMsg
    (view (current (sequential fixedZone
                      [ClickGrade remember sampleNow true true]
                      distantShown))) = MsgRemembered 100000000 /\
  db (current (sequential fixedZone [ClickGrade remember sampleNow true true]
                 distantShown)) = db distantShown.
Proof.
  split; [repeat split; try reflexivity; apply Z.ltb_lt; reflexivity|].
  destruct (invalid_due_date_stops_the_grade fixedZone remember sampleNow true
              true distantShown 0%nat negativeEntry)
    as (_ & Htrace & Hcur & Hsess & Hdb);
    [reflexivity|reflexivity|reflexivity|apply Z.ltb_lt; reflexivity|].
  split; [exact Htrace|]. split; [exact Hsess|]. split; [|exact Hdb].
  rewrite Hcur. reflexivity.
Defined.

Lemma double_click_skips_a_card_witness :
  (mode (view revealed1) = review /\
   session_of (view revealed1) = Showing 1 true /\
   nth_error (reviewQueue (view revealed1)) 1 = Some sampleEntry1 /\
   (2 < List.length (reviewQueue (view revealed1)))%nat /\
   3%nat = List.length (reviewQueue (view revealed1))) /\
  let r := advance_all fixedZone
             [PressGrade remember; PressGrade remember;
              SelectAnswer 0 true sampleNow; SelectAnswer 1 true sampleNow;
              UpdateAnswer 0 true; UpdateAnswer 0 true]
             (quiescent revealed1) in
  currentCardIndex (view (current r)) = 3%nat /\
  cardShown (view (current r)) = true /\
  currentCardOf (view (current r)) = None.
Proof.
  split; [repeat split; try reflexivity; apply Nat.ltb_lt; reflexivity|].
  destruct (double_click_skips_a_card fixedZone remember remember sampleNow
              sampleNow true true true true revealed1 1%nat sampleEntry1)
    as (_ & _ & _ & _ & Hidx & Hend);
    [reflexivity|reflexivity|reflexivity|apply Nat.ltb_lt; reflexivity
    |apply Z.leb_le; reflexivity|apply Z.leb_le; reflexivity|].
  cbv zeta. split; [exact Hidx|]. exact (Hend eq_refl).
Defined.

Lemma atlas_unfiltered_lists_all_witness :
  (searchTerm (atlas_of atlasLoaded) = ""%string /\
   filterCategory (atlas_of atlasLoaded) = "all"%string) /\
  map id (filteredAtlasCards (atlas_of atlasLoaded)) = [14; 13; 12; 11; 10].
Proof.
  split; [split; reflexivity|].
  rewrite (atlas_unfiltered_lists_all (atlas_of atlasLoaded) eq_refl eq_refl).
  reflexivity.
Defined.

Lemma note_style_without_note_filter_witness :
  (card_node otherCard = Some otherInfo /\
   toLowerCase (category otherInfo) <> "code"%string /\
   toLowerCase (category otherInfo) <> "english"%string /\
   category otherInfo <> "note"%string) /\
  label (getCategoryColor
           (js_or falsyString (Some (category otherInfo)) "note"%string))
  = LabelNote /\
  matchesCategory "note" otherCard = false /\
  has_category "note" otherCard = false.
Proof.
  assert (H1 : toLowerCase (category otherInfo) <> "code"%string)
    by (cbv; discriminate).
  assert (H2 : toLowerCase (category otherInfo) <> "english"%string)
    by (cbv; discriminate).
  assert (H3 : category otherInfo <> "note"%string) by (cbv; discriminate).
  split; [repeat split; try reflexivity; assumption|].
  apply (note_style_without_note_filter otherCard otherInfo eq_refl H1 H2 H3).
Defined.

(** The sample atlas: five rows newest first, the row of the missing node 9
    kept as a note; deleting card 11 when the first request fails removes
    the card and its node from the tables. *)
Example sample_atlas :
  map id (atlasCards (atlas_of atlasLoaded)) = [14; 13; 12; 11; 10] /\
  map entry_mastered (atlasCards (atlas_of atlasLoaded))
  = [false; false; false; true; false] /\
  stats (atlas_of atlasLoaded)
  = {| st_total := 5; st_code := 1; st_english := 1; st_note := 3 |} /\
  (let r := handleDelete false true 11 2 false true true atlasLoaded in
   map id (atlasCards (atlas_of (fst r))) = [14; 13; 12; 10] /\
   totalStars (atlas_of (fst r)) = 3 /\
   map n_id (knowledge_nodes (db (world_of (fst r)))) = [1; 3; 4] /\
   map c_id (flashcards (db (world_of (fst r)))) = [10; 12; 13; 14]).
Proof. repeat split. Qed.
